(** * finanzas-personales: the spreadsheet gateway and the finance calculator

    A shallow embedding of [src/main.py].  The built-in functions of the
    interpreter that the program relies on are in the module [Python]:
    strings (sequences of code points), binary64 floats ([spec_float] at
    precision 53), [str.replace], [float] and [int] of a str.  The two
    classes of the program become two modules:

    - [GoogleSheetsManager]: the remote spreadsheet is an explicit state
      (a finite map from worksheet titles to grids of cells, together with
      the journal of write requests sent to it); the methods are computations
      in a state-and-exception monad, because every one of them can raise.
      What gspread and pandas do to the cells on the way to a frame is part
      of it.
    - [FinanceCalculator]: pure functions on strings and floats. *)

From Stdlib Require Import ZArith.
From Stdlib Require Import Floats.SpecFloat.
From Stdlib Require DecimalFacts DecimalPos DecimalN.
From stdpp Require Import gmap strings list.

(** ** Python results *)

Inductive exn : Type :=
  | IndexError
  | KeyError
  | ValueError
  | TypeError
  | WorksheetNotFound
  | GSpreadException
  | APIError.

Inductive outcome (A : Type) : Type :=
  | Returns (a : A)
  | Raises (e : exn).
Arguments Returns {A} a.
Arguments Raises {A} e.

Definition is_raise {A} (o : outcome A) : bool :=
  match o with Raises _ => true | Returns _ => false end.

(** ** Built-in types and functions *)

Module Python.

(** A Python [str] is a sequence of code points. *)
Abbreviation pystr := (list N).

(** The code points of a literal of ASCII characters. *)
Definition py (s : string) : pystr :=
  Ascii.N_of_ascii <$> String.list_ascii_of_string s.

(** Python floats are IEEE 754 binary64 numbers. *)
Abbreviation float := spec_float.
Definition prec : Z := 53.
Definition emax : Z := 1024.

Definition float_of_Z (z : Z) : float := binary_normalize prec emax z 0 false.

(** *** [str.replace] *)

Fixpoint is_prefix (p s : pystr) : bool :=
  match p, s with
  | [], _ => true
  | _ :: _, [] => false
  | a :: p', b :: s' => (a =? b)%N && is_prefix p' s'
  end.

(** Left to right, occurrences that do not overlap; [skip] counts the
    characters of the occurrence just replaced that are still to pass. *)
Fixpoint replace_from (old new : pystr) (skip : nat) (s : pystr) : pystr :=
  match s with
  | [] => []
  | c :: s' =>
      match skip with
      | S k => replace_from old new k s'
      | O =>
          if is_prefix old s
          then new ++ replace_from old new (length old - 1) s'
          else c :: replace_from old new 0 s'
      end
  end.

Definition replace (old new s : pystr) : pystr :=
  match old with
  | [] => new ++ concat ((λ c, c :: new) <$> s)
  | _ :: _ => replace_from old new 0 s
  end.

(** *** [float(str)] *)

(** The part of the interpreter's Unicode database that [float] consults
    for the code points from 127 up: which are white space, and which are
    decimal digits, with their value. *)
Record unicode_db : Type := UnicodeDb {
  Py_UNICODE_ISSPACE : N → bool;
  Py_UNICODE_TODECIMAL : N → option N
}.

Definition Py_ISSPACE (c : N) : bool :=
  ((9 <=? c) && (c <=? 13) || (c =? 32))%N.

Definition Py_ISDIGIT (c : N) : bool := ((48 <=? c) && (c <=? 57))%N.

Definition Py_TOLOWER (c : N) : N :=
  if ((65 <=? c) && (c <=? 90))%N then (c + 32)%N else c.

Section float_of_str.
Variable db : unicode_db.

(** [_PyUnicode_TransformDecimalAndSpaceToASCII]: an ASCII string is
    taken as it is; otherwise white space becomes a space, a decimal
    digit its ASCII digit, and the string is cut at the first other
    character from 127 up, which is replaced by a question mark. *)
Fixpoint transform_non_ascii (s : pystr) : pystr :=
  match s with
  | [] => []
  | ch :: s' =>
      if (ch <? 127)%N then ch :: transform_non_ascii s'
      else if Py_UNICODE_ISSPACE db ch then 32%N :: transform_non_ascii s'
      else match Py_UNICODE_TODECIMAL db ch with
           | Some d => (48 + d)%N :: transform_non_ascii s'
           | None => [63%N]
           end
  end.

Definition transform_decimal_and_space (s : pystr) : pystr :=
  if forallb (λ ch, (ch <? 128)%N) s then s else transform_non_ascii s.

Fixpoint lstrip (s : pystr) : pystr :=
  match s with
  | c :: s' => if Py_ISSPACE c then lstrip s' else s
  | [] => []
  end.

Definition strip (s : pystr) : pystr :=
  reverse (lstrip (reverse (lstrip s))).

(** [_Py_string_to_number_with_underscores]: an underscore is dropped
    when it stands between two digits and refused anywhere else. *)
Fixpoint drop_underscores (prev : N) (s : pystr) : option pystr :=
  match s with
  | [] => if (prev =? 95)%N then None else Some []
  | c :: s' =>
      if (c =? 95)%N then
        if Py_ISDIGIT prev then drop_underscores c s' else None
      else if (prev =? 95)%N && negb (Py_ISDIGIT c) then None
      else (c ::.) <$> drop_underscores c s'
  end.

(** Digits at the front of [s], and what follows them. *)
Fixpoint span_digits (s : pystr) : pystr * pystr :=
  match s with
  | c :: s' =>
      if Py_ISDIGIT c
      then let '(ds, r) := span_digits s' in (c :: ds, r)
      else ([], s)
  | [] => ([], [])
  end.

Definition digits_value (ds : pystr) : Z :=
  foldl (λ acc d, 10 * acc + (Z.of_N d - 48))%Z 0%Z ds.

(** An optional sign at the front of [s]: whether it is a minus, and
    what follows it. *)
Definition parse_sign (s : pystr) : bool * pystr :=
  match s with
  | c :: s' =>
      if (c =? 45)%N then (true, s')
      else if (c =? 43)%N then (false, s')
      else (false, s)
  | [] => (false, s)
  end.

Fixpoint lstrip_zeros (ds : pystr) : pystr :=
  match ds with
  | c :: ds' => if (c =? 48)%N then lstrip_zeros ds' else ds
  | [] => []
  end.

Definition MAX_DIGITS : N := 1000000000.

(** The count of digits [_Py_dg_strtod] keeps, leading zeros apart. *)
Definition ndigits (int_part frac_part : pystr) : N :=
  match lstrip_zeros int_part with
  | [] => N.of_nat (length (lstrip_zeros frac_part))
  | ds => N.of_nat (length ds) + N.of_nat (length frac_part)
  end.

(** The binary64 number nearest to [(-1)^sign * m * 10^e], ties to even;
    out of range it is an infinity. *)
Definition round_decimal (sign : bool) (m e : Z) : float :=
  match m with
  | Zpos p =>
      if (0 <=? e)%Z
      then binary_normalize prec emax
             (cond_Zopp sign (Zpos p * 10 ^ e)) 0 false
      else let '(q, e', l) :=
             SFdiv_core_binary prec emax (Zpos p) 0 (10 ^ (- e)) 0 in
           binary_round_aux prec emax sign q e' l
  | _ => S754_zero sign
  end.

(** The exponent part at the front of [s], if there is a whole one. *)
Definition parse_exponent (s : pystr) : Z * pystr :=
  match s with
  | c :: s1 =>
      if (Py_TOLOWER c =? 101)%N then
        let '(esign, s2) := parse_sign s1 in
        match span_digits s2 with
        | ([], _) => (0%Z, s)
        | (ds, s3) => (cond_Zopp esign (digits_value ds), s3)
        end
      else (0%Z, s)
  | [] => (0%Z, s)
  end.

(** [_Py_dg_strtod]: the number at the front of [s] and the rest of [s],
    or nothing when [s] does not start with a number. *)
Definition strtod (s : pystr) : option (float * pystr) :=
  let '(sign, s1) := parse_sign s in
  let '(int_part, s2) := span_digits s1 in
  let '(frac_part, s3) :=
    match s2 with
    | c :: s2' => if (c =? 46)%N then span_digits s2' else ([], s2)
    | [] => ([], s2)
    end in
  match int_part ++ frac_part with
  | [] => None
  | ds =>
      if (MAX_DIGITS <? ndigits int_part frac_part)%N
         || (MAX_DIGITS <? N.of_nat (length frac_part))%N
      then None
      else
        let '(e, s4) := parse_exponent s3 in
        Some (round_decimal sign (digits_value ds)
                (e - Z.of_nat (length frac_part)), s4)
  end.

Definition case_insensitive_match (t s : pystr) : option pystr :=
  if is_prefix t (Py_TOLOWER <$> take (length t) s)
  then Some (drop (length t) s) else None.

(** [_Py_parse_inf_or_nan]. *)
Definition parse_inf_or_nan (s : pystr) : option (float * pystr) :=
  let '(negate, s1) := parse_sign s in
  match case_insensitive_match (py "inf") s1 with
  | Some s2 =>
      match case_insensitive_match (py "inity") s2 with
      | Some s3 => Some (S754_infinity negate, s3)
      | None => Some (S754_infinity negate, s2)
      end
  | None =>
      match case_insensitive_match (py "nan") s1 with
      | Some s2 => Some (S754_nan, s2)
      | None => None
      end
  end.

(** [PyOS_string_to_double] as [float] calls it: the whole string has
    to be consumed. *)
Definition string_to_double (s : pystr) : outcome float :=
  let r := match strtod s with
           | Some r => Some r
           | None => parse_inf_or_nan s
           end in
  match r with
  | Some (x, []) => Returns x
  | _ => Raises ValueError
  end.

(** [float(s)] for a string [s]. *)
Definition float_of_str (s : pystr) : outcome float :=
  let s1 := strip (transform_decimal_and_space s) in
  if decide (95%N ∈ s1) then
    match drop_underscores 0%N s1 with
    | Some s2 => string_to_double s2
    | None => Raises ValueError
    end
  else string_to_double s1.
End float_of_str.

(** *** [int(str)] *)

(** The count of digits up to which [int] converts a numeral whatever
    the limit of the interpreter is. *)
Definition MAX_STR_DIGITS_THRESHOLD : N := 640.

(** [long_from_string_base] in base 10: the digits at the front of [s],
    single underscores between them dropped, and what follows them;
    nothing when an underscore stands after another or after the last
    digit.  [prev] is the character before [s]. *)
Fixpoint scan_digits (prev : N) (s : pystr) : option (pystr * pystr) :=
  match s with
  | c :: s' =>
      if Py_ISDIGIT c then
        match scan_digits c s' with
        | Some (ds, r) => Some (c :: ds, r)
        | None => None
        end
      else if (c =? 95)%N then
        if (prev =? 95)%N then None else scan_digits c s'
      else if (prev =? 95)%N then None else Some ([], s)
  | [] => if (prev =? 95)%N then None else Some ([], [])
  end.

Section int_of_str.
Variable db : unicode_db.

(** [sys.get_int_max_str_digits()]: the longest numeral that [int]
    converts, 0 for no limit (4300 unless the interpreter is told
    otherwise; an interpreter without the limit behaves as with 0). *)
Variable max_str_digits : N.

(** [PyLong_FromString] in base 10 and the check of
    [PyLong_FromUnicodeObject] that all of the string was read: white
    space, an optional sign, digits, white space. *)
Definition long_from_string (s : pystr) : outcome Z :=
  let '(negative, s1) := parse_sign (lstrip s) in
  match s1 with
  | [] => Raises ValueError
  | c :: _ =>
      if (c =? 95)%N then Raises ValueError
      else
        match scan_digits 0%N s1 with
        | Some (d :: ds, rest) =>
            match lstrip rest with
            | [] =>
                let digits := N.of_nat (length (d :: ds)) in
                if (MAX_STR_DIGITS_THRESHOLD <? digits)%N
                   && (0 <? max_str_digits)%N
                   && (max_str_digits <? digits)%N
                then Raises ValueError
                else Returns (cond_Zopp negative (digits_value (d :: ds)))
            | _ :: _ => Raises ValueError
            end
        | _ => Raises ValueError
        end
  end.

(** [int(s)] for a string [s]. *)
Definition int_of_str (s : pystr) : outcome Z :=
  long_from_string (transform_decimal_and_space db s).
End int_of_str.

(** *** Values *)

(** The values that come out of a worksheet: strings and numbers. *)
Inductive value : Type :=
  | Str (s : pystr)
  | Int (z : Z)
  | Float (x : float).

#[global] Instance spec_float_eq_dec : EqDecision spec_float.
Proof. solve_decision. Defined.

#[global] Instance value_eq_dec : EqDecision value.
Proof. solve_decision. Defined.

End Python.

(** ** The spreadsheet gateway *)

Module GoogleSheetsManager.
Import Python.

(** A cell is the text the sheet shows for it, which is what the client
    library reads (every value of [get_all_values] is a str); a value
    written to a cell is given as that text.  [blank] is the text of a
    cell nothing was written to. *)
Definition blank : pystr := [].

(** A worksheet is the list of its rows, the header row first. Row [r],
    column [c] of the sheet (both counted from 1) is element [c - 1] of
    element [r - 1]. *)
Abbreviation worksheet := (list (list pystr)).

(** A record is a Python dict, kept as the list of its items in insertion
    order. *)
Abbreviation record := (list (pystr * value)).

Inductive request : Type :=
  | UpdateCell (title : string) (row col : nat) (value : pystr)
  | AppendRow (title : string) (values : list pystr).

Record remote : Type := Remote {
  sheets : gmap string worksheet;
  journal : list request
}.

(** *** Grids *)


(** [set_at d i x l]: store [x] at index [i], growing [l] with [d] when
    [i] is past its end (a sheet has cells beyond the used range). *)
Definition set_at {A} (d : A) (i : nat) (x : A) (l : list A) : list A :=
  <[i := x]> (l ++ replicate (S i - length l) d).

Definition write_cell (ws : worksheet) (i j : nat) (v : pystr) : worksheet :=
  set_at [] i (set_at blank j v (default [] (ws !! i))) ws.

Definition width (ws : worksheet) : nat := max_list (length <$> ws).

Definition pad (w : nat) (row : list pystr) : list pystr :=
  row ++ replicate (w - length row) blank.

(** gspread's [fill_gaps]: every row is extended to the longest one. *)
Definition fill_gaps (ws : worksheet) : worksheet := pad (width ws) <$> ws.

Section sheets.

(** *** The monad of remote calls *)

Definition M (A : Type) : Type := remote → outcome A * remote.

Definition ret {A} (a : A) : M A := λ st, (Returns a, st).
Definition raise {A} (e : exn) : M A := λ st, (Raises e, st).
Definition bind {A B} (m : M A) (k : A → M B) : M B :=
  λ st, match m st with
        | (Returns a, st') => k a st'
        | (Raises e, st') => (Raises e, st')
        end.
Definition lift {A} (o : outcome A) : M A := λ st, (o, st).

Notation "x <- m ;; k" := (bind m (λ x, k))
  (at level 100, m at next level, right associativity, only parsing).
Notation "m ;;; k" := (bind m (λ _, k))
  (at level 100, right associativity, only parsing).

(** *** gspread *)

(** [Spreadsheet.worksheet(title)]: the handle of a worksheet is its title. *)
Definition get_worksheet (worksheet_name : string) : M string :=
  λ st, match sheets st !! worksheet_name with
        | Some _ => (Returns worksheet_name, st)
        | None => (Raises WorksheetNotFound, st)
        end.

Definition get_all_values (h : string) : M worksheet :=
  λ st, match sheets st !! h with
        | Some ws => (Returns (fill_gaps ws), st)
        | None => (Raises APIError, st)
        end.

(** The interpreter's Unicode database and its limit on the length of
    the numerals that [int] converts. *)
Variable db : unicode_db.
Variable max_str_digits : N.

(** The value [numericise] gives for an empty cell. *)
Definition default_blank : value := Str [].

(** [utils.numericise(value)]: a text with an underscore is kept; any
    other is read with its commas removed, as an [int] if it is one, else
    as a [float] if it is one, and kept as it is if it is neither
    ([int] and [float] of a str raise nothing but [ValueError]). *)
Definition numericise (value : pystr) : Python.value :=
  if decide (95%N ∈ value) then Str value
  else
    let cleaned_value := replace (py ",") [] value in
    match int_of_str db max_str_digits cleaned_value with
    | Returns z => Int z
    | Raises _ =>
        match float_of_str db cleaned_value with
        | Returns x => Float x
        | Raises _ =>
            if decide (value = []) then default_blank else Str value
        end
    end.

Definition numericise_all (values : list pystr) : list Python.value :=
  numericise <$> values.

(** [Worksheet.get_all_records()]: the first row gives the keys, every
    later row one record of numericised values; a header row with a
    repeated key is refused. *)
Definition get_all_records (h : string) : M (list record) :=
  data <- get_all_values h ;;
  match data with
  | [] => ret []
  | keys :: values =>
      if decide (NoDup keys)
      then ret (zip keys <$> (numericise_all <$> values))
      else raise GSpreadException
  end.

(** [Worksheet.update_cell(row, col, value)], rows and columns from 1. *)
Definition update_cell (h : string) (row col : nat) (value : pystr) : M unit :=
  λ st, match sheets st !! h, row, col with
        | Some ws, S i, S j =>
            (Returns (),
             {| sheets := <[h := write_cell ws i j value]> (sheets st);
                journal := journal st ++ [UpdateCell h row col value] |})
        | _, _, _ => (Raises APIError, st)
        end.

(** [Worksheet.append_row(values)]: a new row below the last one. *)
Definition append_row (h : string) (values : list pystr) : M unit :=
  λ st, match sheets st !! h with
        | Some ws =>
            (Returns (),
             {| sheets := <[h := ws ++ [values]]> (sheets st);
                journal := journal st ++ [AppendRow h values] |})
        | None => (Raises APIError, st)
        end.

(** *** pandas *)

(** A frame with the default index [0, 1, ..., index - 1], kept as
    pandas keeps it, column by column: [data] has one list of [index]
    values for every label of [columns]. *)
Record DataFrame : Type := Frame {
  columns : list pystr;
  index : nat;
  data : list (list value)
}.

Fixpoint dict_get (k : pystr) (r : record) : option value :=
  match r with
  | [] => None
  | (k', v) :: r' => if decide (k' = k) then Some v else dict_get k r'
  end.

(** Keys in order of first appearance. *)
Definition add_key (acc : list pystr) (k : pystr) : list pystr :=
  if decide (k ∈ acc) then acc else acc ++ [k].

Definition unique_keys (records : list record) : list pystr :=
  foldl add_key [] (concat ((λ r, r.*1) <$> records)).

(** The value of a record that lacks the column. *)
Definition np_nan : value := Float S754_nan.

Definition is_str (v : value) : bool :=
  match v with Str _ => true | _ => false end.

Definition is_float (v : value) : bool :=
  match v with Float _ => true | _ => false end.

(** The integers of the signed and of the unsigned 64-bit range that are
    not in the other one, and the integers in neither. *)
Definition is_sint (v : value) : bool :=
  match v with
  | Int z => bool_decide (- 2 ^ 63 ≤ z < 0)%Z
  | _ => false
  end.

Definition is_uint (v : value) : bool :=
  match v with
  | Int z => bool_decide (2 ^ 63 ≤ z < 2 ^ 64)%Z
  | _ => false
  end.

Definition is_wide_int (v : value) : bool :=
  match v with
  | Int z => bool_decide (z < - 2 ^ 63 ∨ 2 ^ 64 ≤ z)%Z
  | _ => false
  end.

(** The columns that stay arrays of Python objects: those that hold a
    str, an integer outside the 64-bit ranges, or integers that need
    both ranges. *)
Definition object_dtype (arr : list value) : bool :=
  existsb is_str arr || existsb is_wide_int arr
  || (existsb is_sint arr && existsb is_uint arr).

Definition to_float64 (v : value) : value :=
  match v with
  | Int z => Float (float_of_Z z)
  | _ => v
  end.

(** [lib.maybe_convert_objects]: the values of a column as the frame
    holds them.  A column of numbers becomes an array of machine numbers:
    of floats when one of them is a float (NaN is one), the integers
    among them rounded to the nearest float; of 64-bit integers
    otherwise. *)
Definition maybe_convert_objects (arr : list value) : list value :=
  if object_dtype arr then arr
  else if existsb is_float arr then to_float64 <$> arr
  else arr.

(** [pd.DataFrame(records)] for a list of dicts. *)
Definition pd_DataFrame (records : list record) : DataFrame :=
  let cols := unique_keys records in
  {| columns := cols;
     index := length records;
     data := (λ c, maybe_convert_objects
                     ((λ r, default np_nan (dict_get c r)) <$> records))
               <$> cols |}.

(** [l[i]] on a Python sequence. *)
Definition getitem {A} (l : list A) (i : nat) : outcome A :=
  match l !! i with
  | Some x => Returns x
  | None => Raises IndexError
  end.

(** [df[label]]: the column with that label. *)
Definition column (df : DataFrame) (label : pystr) : outcome (list value) :=
  match list_find (λ c, c = label) (columns df) with
  | Some (j, _) => Returns (default [] (data df !! j))
  | None => Raises KeyError
  end.

(** [series == text] for a str [text], element by element: an element
    equals the text when it is that str; a number equals no str. *)
Definition series_eq (s : list value) (text : pystr) : list bool :=
  (λ x, bool_decide (x = Str text)) <$> s.

(** [mask.any()]. *)
Definition any (mask : list bool) : bool := existsb id mask.

(** [df[mask].index]: the index labels of the rows the mask keeps. *)
Fixpoint masked_index (pos : nat) (mask : list bool) : list nat :=
  match mask with
  | [] => []
  | b :: mask' =>
      if b then pos :: masked_index (S pos) mask'
      else masked_index (S pos) mask'
  end.

(** [df.iloc[:, j].tolist()]. *)
Definition iloc_column (df : DataFrame) (j : nat) : outcome (list value) :=
  if decide (j < length (columns df))
  then Returns (default [] (data df !! j))
  else Raises IndexError.

(** *** The methods of [GoogleSheetsManager] *)

Definition read_budget_data (worksheet_name : string) : M DataFrame :=
  worksheet <- get_worksheet worksheet_name ;;
  data <- get_all_records worksheet ;;
  ret (pd_DataFrame data).

Definition read_transactions (worksheet_name : string) : M DataFrame :=
  worksheet <- get_worksheet worksheet_name ;;
  data <- get_all_records worksheet ;;
  ret (pd_DataFrame data).

(** [category] is the name of a category, a str. *)
Definition update_expense (category amount : pystr) (worksheet_name : string)
  : M bool :=
  worksheet <- get_worksheet worksheet_name ;;
  data <- get_all_records worksheet ;;
  let df := pd_DataFrame data in
  category_col <- lift (getitem (columns df) 0) ;;
  col <- lift (column df category_col) ;;
  let mask := series_eq col category in
  if any mask then
    first <- lift (getitem (masked_index 0 mask) 0) ;;
    let row_index := first + 2 in
    update_cell worksheet row_index 3 amount ;;;
    ret true
  else ret false.

Definition add_transaction (date category description amount : pystr)
    (worksheet_name : string) : M unit :=
  worksheet <- get_worksheet worksheet_name ;;
  append_row worksheet [date; category; description; amount].

Definition get_categories (worksheet_name : string) : M (list value) :=
  df <- read_budget_data worksheet_name ;;
  lift (iloc_column df 0).

(** *** Notions the statements use *)

(** The header row as the client reads it. *)
Definition header (ws : worksheet) : list pystr :=
  default [] (head (fill_gaps ws)).

(** A budget sheet has a header row of at least one column, and no two
    columns share a name. *)
Definition budget_sheet (ws : worksheet) : Prop :=
  header ws ≠ [] ∧ NoDup (header ws).

(** The rows below the header. *)
Definition data_rows (ws : worksheet) : worksheet := drop 1 ws.

(** The first-column text of every data row, in sheet order. *)
Definition categories (ws : worksheet) : list pystr :=
  (λ row, default blank (head row)) <$> data_rows ws.

(** The texts of column [j] (counted from 0) of the data rows, in sheet
    order. *)
Definition column_cells (ws : worksheet) (j : nat) : list pystr :=
  (λ row, default blank (row !! j)) <$> data_rows ws.


(** The values that a frame holds for a column of cells: every text
    numericised by gspread, the column then converted by pandas. *)
Definition read_column (cells : list pystr) : list value :=
  maybe_convert_objects (numericise <$> cells).

(** The frame of a budget sheet with at least one data row: the header
    gives the labels, every column of the data rows a column. *)
Definition budget_frame_of (ws : worksheet) : DataFrame :=
  {| columns := header ws;
     index := length (data_rows ws);
     data := (λ j, read_column (column_cells ws j)) <$> seq 0 (width ws) |}.

(** What a reading method returns, from the worksheet it names ([None]
    when the spreadsheet has no worksheet of that name). *)
Definition records_of (o : option worksheet) : outcome (list record) :=
  match o with
  | None => Raises WorksheetNotFound
  | Some ws =>
      match fill_gaps ws with
      | [] => Returns []
      | keys :: values =>
          if decide (NoDup keys)
          then Returns (zip keys <$> (numericise_all <$> values))
          else Raises GSpreadException
      end
  end.

Definition frame_of (o : option worksheet) : outcome DataFrame :=
  match records_of o with
  | Returns data => Returns (pd_DataFrame data)
  | Raises e => Raises e
  end.

Definition categories_of (o : option worksheet) : outcome (list value) :=
  match frame_of o with
  | Returns df => iloc_column df 0
  | Raises e => Raises e
  end.


(** The values of the first column of a frame. *)
Definition first_column (df : DataFrame) : list value :=
  default [] (head (data df)).

End sheets.

(** The default worksheet names of the methods. *)
Definition Presupuesto : string := "Presupuesto".
Definition Transacciones : string := "Transacciones".

End GoogleSheetsManager.

(** ** The finance calculator *)

Module FinanceCalculator.
Export Python.

(** *** [calculate_available] *)

Section calculate_available.
Variable db : unicode_db.

(** [str(x)] of a string is the string itself. *)
Definition str (x : pystr) : pystr := x.

Definition obind {A B} (o : outcome A) (k : A → outcome B) : outcome B :=
  match o with
  | Returns a => k a
  | Raises e => Raises e
  end.

Definition calculate_available (budget spent : pystr) : outcome float :=
  let body :=
    obind (float_of_str db
             (replace (py ",") [] (replace (py "$") [] (str budget))))
      (λ budget_val,
    obind (float_of_str db
             (replace (py ",") [] (replace (py "$") [] (str spent))))
      (λ spent_val,
    Returns (SFsub prec emax budget_val spent_val))) in
  match body with
  | Raises ValueError | Raises TypeError => Returns (S754_zero false)
  | r => r
  end.
End calculate_available.

(** *** [format_currency] *)

Fixpoint uint_chars (u : Decimal.uint) : pystr :=
  match u with
  | Decimal.Nil => []
  | Decimal.D0 u' => 48%N :: uint_chars u'
  | Decimal.D1 u' => 49%N :: uint_chars u'
  | Decimal.D2 u' => 50%N :: uint_chars u'
  | Decimal.D3 u' => 51%N :: uint_chars u'
  | Decimal.D4 u' => 52%N :: uint_chars u'
  | Decimal.D5 u' => 53%N :: uint_chars u'
  | Decimal.D6 u' => 54%N :: uint_chars u'
  | Decimal.D7 u' => 55%N :: uint_chars u'
  | Decimal.D8 u' => 56%N :: uint_chars u'
  | Decimal.D9 u' => 57%N :: uint_chars u'
  end.

(** The decimal digits of [n], most significant first. *)
Definition decimal (n : N) : pystr := uint_chars (N.to_uint n).

Definition two_digits (n : N) : pystr := [(48 + n / 10)%N; (48 + n mod 10)%N].

(** The integer nearest to [num / den], ties to the even one. *)
Definition round_half_even (num den : Z) : Z :=
  let q := (num / den)%Z in
  match (2 * (num mod den) ?= den)%Z with
  | Lt => q
  | Gt => (q + 1)%Z
  | Eq => if Z.even q then q else (q + 1)%Z
  end.

(** [|x| * 100] rounded to an integer, for a finite [x]. *)
Definition hundredths (x : float) : N :=
  match x with
  | S754_finite _ m e =>
      Z.to_N (if (0 <=? e)%Z then Zpos m * 2 ^ e * 100
              else round_half_even (Zpos m * 100) (2 ^ (- e)))
  | _ => 0%N
  end.

(** A comma before every group of three digits, counted from the right;
    the digits come least significant first and [k] of them are already in
    the current group. *)
Fixpoint insert_commas (k : nat) (ds : pystr) : pystr :=
  match ds with
  | [] => []
  | d :: ds' =>
      match k with
      | 3 => 44%N :: d :: insert_commas 1 ds'
      | _ => d :: insert_commas (S k) ds'
      end
  end.

Definition group_thousands (ds : pystr) : pystr :=
  reverse (insert_commas 0 (reverse ds)).

Definition sign_chars (s : bool) : pystr := if s then [45%N] else [].

(** [format(x, ",.2f")]. *)
Definition format_fixed2_grouped (x : float) : pystr :=
  match x with
  | S754_nan => py "nan"
  | S754_infinity s => sign_chars s ++ py "inf"
  | S754_zero s | S754_finite s _ _ =>
      let h := hundredths x in
      sign_chars s ++ group_thousands (decimal (h / 100))
        ++ 46%N :: two_digits (h mod 100)
  end.

Definition format_currency (amount : float) : pystr :=
  py "$" ++ format_fixed2_grouped amount.

(** *** [get_status_indicator] *)

Section status.
Context {status : Type}.

(** A band of the function: [available > threshold], or
    [available >= threshold] when [inclusive], gives [band_status]. *)
Record band : Type := Band {
  inclusive : bool;
  threshold : float;
  band_status : status
}.

Definition in_band (b : band) (available : float) : bool :=
  if inclusive b then SFleb (threshold b) available
  else SFltb (threshold b) available.

(** Modelled from the spec: the bands of [get_status_indicator] below its
    first one.  The text of the function in [src/main.py] stops inside
    its first branch, [if available > 1000: return ...]; the spec gives
    the rest as ordered threshold bands whose thresholds and number are
    presentation policy.  So the first band is the one of the source, and
    the lower bands (an [elif] each, comparing [available] with a
    threshold, in the order they are written) and the status of the final
    [else] are parameters. *)
Variables (first_status : status)
          (lower_bands : list band)
          (last_status : status).

(** The band that [available] falls into, counted from the first, and
    its status. *)
Fixpoint band_from (n : nat) (bands : list band) (available : float)
    : nat * status :=
  match bands with
  | [] => (n, last_status)
  | b :: bands' =>
      if in_band b available then (n, band_status b)
      else band_from (S n) bands' available
  end.

Definition status_band (available : float) : nat * status :=
  band_from 0 (Band false (float_of_Z 1000) first_status :: lower_bands)
    available.

Definition get_status_indicator (available : float) : status :=
  (status_band available).2.

(** The statuses in the order of their bands, the most favourable first. *)
Definition statuses : list status :=
  first_status :: (band_status <$> lower_bands) ++ [last_status].
End status.

(** *** Notions the statements use *)

Definition is_finite (x : float) : bool :=
  match x with
  | S754_zero _ | S754_finite _ _ _ => true
  | _ => false
  end.

Definition is_zero (x : float) : bool :=
  match x with S754_zero _ => true | _ => false end.

(** [x < 0]. *)
Definition is_negative (x : float) : bool := SFltb x (S754_zero false).

(** The string with every ['$'] and every [','] deleted. *)
Definition delete_symbols (s : pystr) : pystr :=
  filter (λ c, c ≠ 36%N ∧ c ≠ 44%N) s.

(** The characters of the literals [float] reads: digits, signs, the
    point, and the letters of an exponent, of "infinity" and of "nan". *)
Definition float_char (c : N) : bool :=
  Py_ISDIGIT c
  || bool_decide (c ∈ py "+-.")
  || bool_decide (Py_TOLOWER c ∈ py "einfinitynan").

(** The code points that can occur in a string [float] reads: below 127
    the characters of the literals, white space and the underscore; from
    127 up the white space and the decimal digits of the Unicode
    database. *)
Definition accepted (db : unicode_db) (c : N) : bool :=
  if (c <? 127)%N then float_char c || Py_ISSPACE c || (c =? 95)%N
  else Py_UNICODE_ISSPACE db c
       || bool_decide (is_Some (Py_UNICODE_TODECIMAL db c)).

(** The characters of a decimal with a point and two decimals. *)
Definition decimal_text (negative : bool) (ds : pystr) (d1 d2 : N) : pystr :=
  sign_chars negative ++ ds ++ [46%N; d1; d2].

(** A float rounded to hundredths: the float nearest to the hundredths of
    [x], with the sign of [x]; infinities and NaN are kept. *)
Definition cents (x : float) : float :=
  match x with
  | S754_zero s | S754_finite s _ _ =>
      round_decimal s (Z.of_N (hundredths x)) (-2)
  | _ => x
  end.

(** [consumes s r]: [r] is what is left of [s] once a prefix of
    characters of float literals is taken away. *)
Definition consumes (s r : pystr) : Prop :=
  ∃ p, s = p ++ r ∧ Forall (λ c, float_char c = true) p.

(** The characters that can be in a string before it is stripped of white
    space and underscores and read as a literal. *)
Definition plain (c : N) : Prop :=
  (float_char c = true ∨ c = 95%N) ∨ Py_ISSPACE c = true.

(** Digits in groups of three separated by commas, the leftmost group
    of one to three digits; the string is read from its right end and [k]
    digits of the current group have been read. *)
Fixpoint grouped_from_right (k : nat) (s : pystr) : bool :=
  match s with
  | [] => bool_decide (0 < k)
  | c :: s' =>
      if (c =? 44)%N then bool_decide (k = 3) && grouped_from_right 0 s'
      else Py_ISDIGIT c && bool_decide (k < 3) && grouped_from_right (S k) s'
  end.

(** A dollar sign, an optional minus sign, grouped digits, a point and
    exactly two digits. *)
Definition is_currency_rendering (s : pystr) : bool :=
  match s with
  | 36%N :: body =>
      let unsigned :=
        match body with
        | c :: b => if (c =? 45)%N then b else body
        | [] => body
        end in
      match reverse unsigned with
      | d2 :: d1 :: 46%N :: int_part =>
          Py_ISDIGIT d1 && Py_ISDIGIT d2 && grouped_from_right 0 int_part
      | _ => false
      end
  | _ => false
  end.

End FinanceCalculator.

(** ** Sample data *)

Module Samples.
Import Python GoogleSheetsManager.

(** A sheet from the texts of its cells. *)
Definition grid (rows : list (list string)) : worksheet :=
  (λ row : list string, py <$> row) <$> rows.

Definition budget : worksheet :=
  grid [ ["Categoria"; "Presupuesto"; "Gasto"];
         ["Comida"; "$500.00"; "$120.00"];
         ["Renta"; "$1,200.00"; "$450.50"];
         ["Comida"; "$80.00"; "$0.00"] ].

Definition transactions : worksheet :=
  grid [ ["Fecha"; "Categoria"; "Descripcion"; "Monto"];
         ["2024-01-05"; "Comida"; "Mercado"; "120"] ].

Definition spreadsheet : remote :=
  {| sheets := {[ Presupuesto := budget; Transacciones := transactions ]};
     journal := [] |}.

(** A budget sheet that has its header row and nothing below it. *)
Definition bare_budget : worksheet :=
  grid [ ["Categoria"; "Presupuesto"; "Gasto"] ].

Definition bare_spreadsheet : remote :=
  {| sheets := {[ Presupuesto := bare_budget; Transacciones := transactions ]};
     journal := [] |}.

(** A budget sheet with categories that are numerals, and amounts without
    a currency sign. *)
Definition coded_budget : worksheet :=
  grid [ ["Categoria"; "Presupuesto"; "Gasto"];
         ["2024"; "500"; "120"];
         ["007"; "1,200"; "450.50"];
         ["1,5"; "80"; "0"];
         ["Renta"; "80.5"; "30"] ].

Definition coded_spreadsheet : remote :=
  {| sheets := {[ Presupuesto := coded_budget ]}; journal := [] |}.

(** An excerpt of the Unicode database: the white space from 127 up, and
    four of the blocks of decimal digits (Arabic-Indic, extended
    Arabic-Indic, Devanagari, full width). *)
Definition unicode : unicode_db :=
  {| Py_UNICODE_ISSPACE := λ c,
       bool_decide (c ∈ [133; 160; 5760; 8232; 8233; 8239; 8287; 12288]%N)
       || ((8192 <=? c) && (c <=? 8202))%N;
     Py_UNICODE_TODECIMAL := λ c,
       if ((1632 <=? c) && (c <=? 1641))%N then Some (c - 1632)%N
       else if ((1776 <=? c) && (c <=? 1785))%N then Some (c - 1776)%N
       else if ((2406 <=? c) && (c <=? 2415))%N then Some (c - 2406)%N
       else if ((65296 <=? c) && (c <=? 65305))%N then Some (c - 65296)%N
       else None |}.

(** The limit on the length of a numeral that the interpreter starts
    with. *)
Definition int_max_str_digits : N := 4300.

(** The code point of the Euro sign. *)
Definition euro : N := 8364.

(** Bands below the first one, for a run of [get_status_indicator]. *)
Definition lower_bands : list (@FinanceCalculator.band string) :=
  [ FinanceCalculator.Band false (float_of_Z 500) "second";
    FinanceCalculator.Band true (float_of_Z 0) "third" ].

(** The floats 749.5, 1234.5 and -1234.5. *)
Definition f_749_50 : spec_float := S754_finite false 6592671720144896 (-43).
Definition f_1234_50 : spec_float := S754_finite false 5429388417957888 (-42).
Definition f_neg_1234_50 : spec_float := S754_finite true 5429388417957888 (-42).

(** The floats 450.5 and 80.5. *)
Definition f_450_50 : spec_float := S754_finite false 7925279813009408 (-44).
Definition f_80_50 : spec_float := S754_finite false 5664683906301952 (-46).

End Samples.

(** * Properties of the spreadsheet gateway *)

Module SheetsProofs.
Import Python GoogleSheetsManager.

Section grids.
Implicit Types (ws : worksheet).



End grids.

Section frames.
Implicit Types (ws : worksheet) (row keys : list pystr).

Lemma length_pad w row : length row ≤ w → length (pad w row) = w.
Proof. intros. unfold pad. rewrite length_app, length_replicate. lia. Qed.

Lemma length_le_width ws row : row ∈ ws → length row ≤ width ws.
Proof.
  intros Hin. apply max_list_elem_of_le, list_elem_of_fmap. eauto.
Qed.

Lemma fill_gaps_lengths ws :
  Forall (λ row, length row = width ws) (fill_gaps ws).
Proof.
  unfold fill_gaps. apply Forall_fmap, Forall_forall. intros row Hin. simpl.
  by apply length_pad, length_le_width.
Qed.

Lemma head_pad w row :
  0 < w → head (pad w row) = Some (default blank (head row)).
Proof.
  intros Hw. destruct row as [|x row]; [|done].
  unfold pad. simpl. destruct w; [lia|done].
Qed.

Lemma lookup_pad w row k :
  length row ≤ w →
  pad w row !! k =
  if decide (k < w) then Some (default blank (row !! k)) else None.
Proof.
  intros Hlen. unfold pad. case_decide as Hk.
  - destruct (decide (k < length row)) as [Hlt|Hge].
    + rewrite lookup_app_l by done.
      by destruct (lookup_lt_is_Some_2 row k Hlt) as [x ->].
    + rewrite lookup_app_r, lookup_replicate_2 by lia.
      by rewrite (lookup_ge_None_2 row k) by lia.
  - apply lookup_ge_None_2. rewrite length_app, length_replicate. lia.
Qed.

(** Keys that are all new are appended in order; keys that are all known
    change nothing. *)
Lemma foldl_add_key_fresh acc keys :
  NoDup (acc ++ keys) → foldl add_key acc keys = acc ++ keys.
Proof.
  revert acc. induction keys as [|k keys IH]; intros acc Hnd; simpl.
  - by rewrite app_nil_r.
  - unfold add_key at 2. rewrite decide_False.
    + rewrite IH; rewrite <- (assoc_L (++)); done.
    + apply NoDup_app in Hnd as (_ & Hdisj & _). intros Hk.
      apply (Hdisj k Hk). left.
Qed.

Lemma foldl_add_key_known acc keys :
  Forall (λ k, k ∈ acc) keys → foldl add_key acc keys = acc.
Proof.
  induction 1 as [|k keys Hk _ IH]; simpl; [done|].
  unfold add_key at 2. by rewrite decide_True.
Qed.

Lemma unique_keys_zip keys (values : list (list value)) :
  NoDup keys → values ≠ [] →
  Forall (λ r, length r = length keys) values →
  unique_keys (zip keys <$> values) = keys.
Proof.
  intros Hnd Hne Hlen. unfold unique_keys.
  destruct values as [|r values]; [done|].
  apply Forall_cons in Hlen as [Hrow Hlen]. simpl.
  rewrite fst_zip by lia. rewrite foldl_app.
  rewrite (foldl_add_key_fresh [] keys) by done. simpl.
  apply foldl_add_key_known, Forall_concat. rewrite !Forall_fmap.
  eapply Forall_impl; [exact Hlen|]. intros r' Hr. simpl in *.
  rewrite fst_zip by lia. by apply Forall_forall.
Qed.

(** Under distinct keys a record gives for the key at position [j] the
    value at position [j]. *)
Lemma dict_get_lookup keys (r : list value) j k :
  NoDup keys → length r = length keys → keys !! j = Some k →
  dict_get k (zip keys r) = r !! j.
Proof.
  revert r j. induction keys as [|k0 keys IH]; intros [|v r] j Hnd Hlen Hk;
    simplify_eq/=.
  apply NoDup_cons in Hnd as [Hk0 Hnd]. destruct j as [|j]; simplify_eq/=.
  - by rewrite decide_True.
  - rewrite decide_False; [by apply IH|].
    intros ->. apply Hk0. by eapply list_elem_of_lookup_2.
Qed.

(** The frame of records with distinct keys, at least one of them: its
    labels are the keys, and column [j] holds the values at position [j],
    converted. *)
Lemma pd_DataFrame_records keys (values : list (list value)) :
  NoDup keys → values ≠ [] →
  Forall (λ r, length r = length keys) values →
  pd_DataFrame (zip keys <$> values) =
  {| columns := keys;
     index := length values;
     data := (λ j, maybe_convert_objects
                     ((λ r, default np_nan (r !! j)) <$> values))
               <$> seq 0 (length keys) |}.
Proof.
  intros Hnd Hne Hlen. unfold pd_DataFrame.
  rewrite unique_keys_zip by done. f_equal; [by rewrite length_fmap|].
  apply list_eq. intros j. rewrite !list_lookup_fmap.
  destruct (keys !! j) as [k|] eqn:Hk.
  - rewrite lookup_seq_lt by (by eapply lookup_lt_Some). simpl. do 2 f_equal.
    rewrite <- list_fmap_compose. apply Forall_fmap_ext_1.
    eapply Forall_impl; [exact Hlen|]. intros r Hr. simpl.
    by rewrite (dict_get_lookup keys r j k).
  - rewrite lookup_seq_ge; [done|]. by apply lookup_ge_None.
Qed.

(** The frame of a sheet without data rows has no column. *)
Lemma pd_DataFrame_empty :
  pd_DataFrame [] = {| columns := []; index := 0; data := [] |}.
Proof. reflexivity. Qed.
End frames.

Section conversions.
Implicit Types (arr : list value).

Lemma length_maybe_convert_objects arr :
  length (maybe_convert_objects arr) = length arr.
Proof.
  unfold maybe_convert_objects.
  destruct (object_dtype arr); [done|].
  destruct (existsb is_float arr); [|done]. by rewrite length_fmap.
Qed.


End conversions.

Section masks.
Context {V : Type} `{EqDecision V}.
Implicit Types (cats : list V) (mask : list bool).


End masks.

Section methods.
Context (db : unicode_db) (limit : N).
Implicit Types (ws : worksheet) (st : remote).

Lemma fill_gaps_cons h (data : worksheet) :
  fill_gaps (h :: data) =
  pad (width (h :: data)) h :: (pad (width (h :: data)) <$> data).
Proof. reflexivity. Qed.


Lemma categories_column ws : categories ws = column_cells ws 0.
Proof.
  unfold categories, column_cells. apply Forall_fmap_ext_1, Forall_forall.
  intros row _. simpl. by rewrite head_lookup.
Qed.

(** Column [j] of the records of the padded rows. *)
Lemma numericised_column w (data : worksheet) j :
  j < w → Forall (λ row, length row ≤ w) data →
  (λ r : list value, default np_nan (r !! j))
    <$> (numericise_all db limit <$> (pad w <$> data)) =
  numericise db limit <$> ((λ row, default blank (row !! j)) <$> data).
Proof.
  intros Hj Hlen. rewrite <- !list_fmap_compose. apply Forall_fmap_ext_1.
  eapply Forall_impl; [exact Hlen|]. intros row Hrow. simpl.
  unfold numericise_all. rewrite list_lookup_fmap, lookup_pad by done.
  by rewrite decide_True.
Qed.

(** What [get_all_records] returns on a budget sheet. *)
Lemma get_all_records_run st name ws :
  sheets st !! name = Some ws → NoDup (header ws) →
  get_all_records db limit name st =
  (Returns (zip (header ws)
              <$> (numericise_all db limit <$> drop 1 (fill_gaps ws))), st).
Proof.
  intros Hws Hnd. unfold get_all_records, bind, get_all_values.
  rewrite Hws. unfold header in *.
  destruct (fill_gaps ws) as [|keys values]; [done|]. simpl in *.
  by rewrite decide_True.
Qed.

Lemma update_cell_run st name ws i v :
  sheets st !! name = Some ws →
  update_cell name (i + 2) 3 v st =
  (Returns (),
   {| sheets := <[name := write_cell ws (S i) 2 v]> (sheets st);
      journal := journal st ++ [UpdateCell name (i + 2) 3 v] |}).
Proof.
  intros Hws. replace (i + 2) with (S (S i)) by lia.
  unfold update_cell. by rewrite Hws.
Qed.

(** The frame read from a budget sheet with at least one data row. *)
Lemma budget_frame h (data : worksheet) :
  budget_sheet (h :: data) → data ≠ [] →
  0 < width (h :: data) ∧
  pd_DataFrame (zip (header (h :: data))
                  <$> (numericise_all db limit
                         <$> drop 1 (fill_gaps (h :: data)))) =
  budget_frame_of db limit (h :: data).
Proof.
  intros [Hne Hnd] Hdata. set (w := width (h :: data)).
  pose proof (fill_gaps_lengths (h :: data)) as Hlen.
  rewrite fill_gaps_cons in Hlen. apply Forall_cons in Hlen as [Hh Hlen].
  unfold budget_frame_of, header in *. rewrite fill_gaps_cons in *.
  simpl in *. fold w in Hh, Hlen, Hne, Hnd |- *.
  assert (0 < w) as Hw.
  { destruct (pad w h); [done|]. simpl in Hh. lia. }
  split; [done|]. rewrite drop_0, pd_DataFrame_records.
  - f_equal; [by rewrite !length_fmap|]. rewrite Hh.
    apply Forall_fmap_ext_1, Forall_seq. intros j Hj. simpl.
    unfold read_column, column_cells. simpl. f_equal.
    apply numericised_column; [lia|].
    apply Forall_forall. intros row Hrow.
    apply (length_le_width (h :: data)). by right.
  - done.
  - by destruct data.
  - rewrite Forall_fmap. eapply Forall_impl; [exact Hlen|]. simpl.
    intros row Hrow. unfold numericise_all. rewrite length_fmap. congruence.
Qed.

(** [update_expense] on a budget sheet with at least one data row. *)
Lemma update_expense_run st name ws (category amount : pystr) :
  sheets st !! name = Some ws → budget_sheet ws →
  data_rows ws ≠ [] →
  update_expense db limit category amount name st =
  let mask := (λ c, bool_decide (c = Str category))
                <$> read_column db limit (categories ws) in
  if any mask then
    match masked_index 0 mask with
    | i :: _ =>
        (Returns true,
         {| sheets := <[name := write_cell ws (S i) 2 amount]> (sheets st);
            journal := journal st ++ [UpdateCell name (i + 2) 3 amount] |})
    | [] => (Raises IndexError, st)
    end
  else (Returns false, st).
Proof.
  intros Hws Hbs Hdata. destruct ws as [|h data].
  { by destruct Hbs as [[] _]. }
  unfold data_rows in Hdata. simpl in Hdata.
  destruct (budget_frame h data Hbs Hdata) as [Hw Hframe].
  unfold update_expense, bind at 1, get_worksheet. rewrite Hws.
  unfold bind at 1. rewrite (get_all_records_run st name (h :: data) Hws)
    by apply Hbs.
  rewrite Hframe. destruct Hbs as [Hne _]. unfold budget_frame_of.
  destruct (header (h :: data)) as [|k0 keys] eqn:Hkeys; [done|].
  unfold bind at 1, lift at 1, getitem. simpl.
  unfold bind at 1, lift at 1, column. simpl. rewrite decide_True by done.
  simpl. rewrite list_lookup_fmap, lookup_seq_lt by done. simpl.
  rewrite <- categories_column. unfold series_eq.
  destruct (any _); [|done].
  destruct (masked_index 0 _) as [|i rest]; [done|].
  unfold bind at 1, lift at 1. simpl.
  unfold bind. by rewrite (update_cell_run st name (h :: data) i amount Hws).
Qed.

Lemma read_budget_data_run st name ws :
  sheets st !! name = Some ws → budget_sheet ws →
  data_rows ws ≠ [] →
  read_budget_data db limit name st =
  (Returns (budget_frame_of db limit ws), st).
Proof.
  intros Hws Hbs Hdata. destruct ws as [|h data].
  { by destruct Hbs as [[] _]. }
  unfold data_rows in Hdata. simpl in Hdata.
  destruct (budget_frame h data Hbs Hdata) as [Hw Hframe].
  unfold read_budget_data, bind at 1, get_worksheet. rewrite Hws.
  unfold bind. rewrite (get_all_records_run st name (h :: data) Hws)
    by apply Hbs.
  unfold ret. by rewrite Hframe.
Qed.

Lemma budget_sheet_wide ws : budget_sheet ws → 0 < width ws.
Proof.
  intros [Hne _]. destruct ws as [|h data]; [done|].
  pose proof (fill_gaps_lengths (h :: data)) as Hlen.
  unfold header in Hne. rewrite fill_gaps_cons in *.
  apply Forall_cons in Hlen as [Hh _]. simpl in *.
  destruct (pad _ h); [done|]. simpl in Hh. lia.
Qed.

Lemma budget_frame_first_column ws :
  budget_sheet ws →
  first_column (budget_frame_of db limit ws) =
  read_column db limit (categories ws).
Proof.
  intros Hw%budget_sheet_wide. unfold first_column, budget_frame_of. simpl.
  destruct (width ws); [lia|]. simpl. by rewrite categories_column.
Qed.

Lemma get_categories_run st name ws :
  sheets st !! name = Some ws → budget_sheet ws →
  data_rows ws ≠ [] →
  get_categories db limit name st =
  (Returns (read_column db limit (categories ws)), st).
Proof.
  intros Hws Hbs Hdata. unfold get_categories, bind.
  rewrite (read_budget_data_run st name ws Hws Hbs Hdata).
  rewrite <- (budget_frame_first_column ws Hbs).
  unfold lift, iloc_column, first_column, budget_frame_of. simpl.
  pose proof (budget_sheet_wide ws Hbs) as Hw. destruct Hbs as [Hne _].
  destruct (header ws) as [|k0 keys]; [done|].
  rewrite decide_True by (simpl; lia). do 2 f_equal.
  by rewrite <- head_lookup.
Qed.
End methods.

Section claims.
Context (db : unicode_db) (limit : N).
Implicit Types (ws : worksheet) (st : remote).

Lemma masked_index_any pos (mask : list bool) :
  any mask = true → masked_index pos mask ≠ [].
Proof.
  revert pos. unfold any.
  induction mask as [|[] mask IH]; intros pos Hany; simpl in *; eauto.
Qed.



(** C5: [add_transaction] sends one append request; the sheet gets one
    more row, the new row [date, category, description, amount] is its
    last one, and every row that was there is where and what it was. *)
Theorem add_transaction_appends st name ws
    (date category description amount : pystr) :
  sheets st !! name = Some ws →
  let row := [date; category; description; amount] in
  add_transaction date category description amount name st =
    (Returns (),
     {| sheets := <[name := ws ++ [row]]> (sheets st);
        journal := journal st ++ [AppendRow name row] |})
  ∧ length (ws ++ [row]) = S (length ws)
  ∧ (ws ++ [row]) !! length ws = Some row
  ∧ ∀ i r, ws !! i = Some r → (ws ++ [row]) !! i = Some r.
Proof.
  intros Hws row. split; [|split; [|split]].
  - unfold add_transaction, bind, get_worksheet, append_row.
    by rewrite !Hws.
  - rewrite length_app. simpl. lia.
  - by rewrite lookup_app_r, Nat.sub_diag.
  - intros i r Hi. by apply lookup_app_l_Some.
Qed.

(** C6, amended: on a budget sheet with at least one data row,
    [get_categories] returns the first-column values of the frame that
    [read_budget_data] returns, in their order; they are the first-column
    cells of the data rows of the sheet as gspread and pandas read
    them. *)
Theorem get_categories_first_column st name ws :
  sheets st !! name = Some ws → budget_sheet ws →
  data_rows ws ≠ [] →
  ∃ df,
    read_budget_data db limit name st = (Returns df, st)
    ∧ get_categories db limit name st = (Returns (first_column df), st)
    ∧ first_column df = read_column db limit (categories ws).
Proof.
  intros Hws Hbs Hdata. exists (budget_frame_of db limit ws).
  split; [by apply read_budget_data_run|].
  rewrite (budget_frame_first_column db limit ws Hbs).
  split; [by apply get_categories_run|done].
Qed.

(** C10: on a budget sheet with at least one data row [update_expense]
    returns a boolean and [get_categories] a list; on a budget sheet
    without data rows both raise [IndexError] at the access to the first
    column, and nothing is written. *)
Theorem update_expense_needs_data_row st name ws (category amount : pystr) :
  sheets st !! name = Some ws → budget_sheet ws →
  (data_rows ws ≠ [] →
     (∃ b st',
        update_expense db limit category amount name st = (Returns b, st'))
     ∧ ∃ l, get_categories db limit name st = (Returns l, st))
  ∧ (data_rows ws = [] →
       update_expense db limit category amount name st
       = (Raises IndexError, st)
       ∧ get_categories db limit name st = (Raises IndexError, st)).
Proof.
  intros Hws Hbs. split.
  - intros Hdata. split;
      [|by rewrite (get_categories_run db limit st name ws Hws Hbs Hdata);
           eauto].
    rewrite (update_expense_run db limit st name ws category amount
               Hws Hbs Hdata). simpl.
    destruct (any _) eqn:Hany; [|eauto].
    apply (masked_index_any 0) in Hany.
    destruct (masked_index 0 _); [done|eauto].
  - intros Hdata. destruct ws as [|h [|r data]]; [|clear Hdata|done].
    { by destruct Hbs as [[] _]. }
    destruct Hbs as [_ Hnd]. split.
    + unfold update_expense, bind at 1, get_worksheet. rewrite Hws.
      unfold bind at 1.
      by rewrite (get_all_records_run db limit st name [h] Hws Hnd).
    + unfold get_categories, read_budget_data, bind at 1, bind at 1,
        get_worksheet.
      rewrite Hws. unfold bind at 1.
      by rewrite (get_all_records_run db limit st name [h] Hws Hnd).
Qed.
End claims.

(** *** The sample spreadsheets *)

Import Samples.

Lemma sample_budget_lookup : sheets spreadsheet !! Presupuesto = Some budget.
Proof. vm_compute. reflexivity. Defined.

Lemma sample_transactions_lookup :
  sheets spreadsheet !! Transacciones = Some transactions.
Proof. vm_compute. reflexivity. Defined.

Lemma sample_budget_sheet : budget_sheet budget.
Proof.
  split; [discriminate|]. apply (bool_decide_unpack _). vm_compute. exact I.
Defined.

Lemma sample_budget_has_data : data_rows budget ≠ [].
Proof. discriminate. Defined.

Lemma bare_budget_lookup :
  sheets bare_spreadsheet !! Presupuesto = Some bare_budget.
Proof. vm_compute. reflexivity. Defined.

Lemma bare_budget_sheet : budget_sheet bare_budget.
Proof.
  split; [discriminate|]. apply (bool_decide_unpack _). vm_compute. exact I.
Defined.

Lemma coded_budget_lookup :
  sheets coded_spreadsheet !! Presupuesto = Some coded_budget.
Proof. vm_compute. reflexivity. Defined.

Lemma coded_budget_sheet : budget_sheet coded_budget.
Proof.
  split; [discriminate|]. apply (bool_decide_unpack _). vm_compute. exact I.
Defined.

Lemma coded_budget_has_data : data_rows coded_budget ≠ [].
Proof. discriminate. Defined.

(** A write past the used range of a sheet makes the sheet grow. *)
Lemma write_cell_examples :
  write_cell budget 1 2 (py "75") =
    grid [ ["Categoria"; "Presupuesto"; "Gasto"];
           ["Comida"; "$500.00"; "75"];
           ["Renta"; "$1,200.00"; "$450.50"];
           ["Comida"; "$80.00"; "$0.00"] ]
  ∧ write_cell (grid [["Categoria"]; ["Comida"]]) 1 2 (py "75") =
      grid [["Categoria"]; ["Comida"; ""; "75"]]
  ∧ get_categories unicode int_max_str_digits Presupuesto
      {| sheets :=
           {[ Presupuesto := grid [["Categoria"; "Gasto"]; []; ["Renta"]] ]};
         journal := [] |} =
      (Returns [Str (py ""); Str (py "Renta")],
       {| sheets :=
            {[ Presupuesto := grid [["Categoria"; "Gasto"]; []; ["Renta"]] ]};
          journal := [] |}).
Proof. repeat split; vm_compute; reflexivity. Qed.

(** What gspread makes of the text of a cell, and pandas of a column. *)
Lemma numericise_examples :
  let numericise := numericise unicode int_max_str_digits in
  let read_column := read_column unicode int_max_str_digits in
  numericise (py "Renta") = Str (py "Renta")
  ∧ numericise (py "$1,200.00") = Str (py "$1,200.00")
  ∧ numericise (py "") = Str (py "")
  ∧ numericise (py "1_000") = Str (py "1_000")
  ∧ numericise (py "2024") = Int 2024
  ∧ numericise (py "007") = Int 7
  ∧ numericise (py "1,5") = Int 15
  ∧ numericise (py " -12 ") = Int (-12)
  ∧ numericise (py "450.50") = Float f_450_50
  ∧ numericise (py "8,05e-1") = Float f_80_50
  ∧ numericise (py "inf") = Float (S754_infinity false)
  ∧ numericise (py "NaN") = Float S754_nan
  ∧ read_column [py "007"; py "1,5"; py "Renta"] =
      [Int 7; Int 15; Str (py "Renta")]
  ∧ read_column [py "120"; py "450.50"] =
      [Float (float_of_Z 120); Float f_450_50]
  ∧ read_column [py "120"; py "450"] = [Int 120; Int 450].
Proof. repeat split; vm_compute; reflexivity. Qed.



Lemma add_transaction_appends_witness :
  let row := [py "2024-02-01"; py "Renta"; py "Febrero"; py "450.50"] in
  sheets spreadsheet !! Transacciones = Some transactions
  ∧ add_transaction (py "2024-02-01") (py "Renta") (py "Febrero")
      (py "450.50") Transacciones spreadsheet =
      (Returns (),
       {| sheets := <[Transacciones := transactions ++ [row]]>
                      (sheets spreadsheet);
          journal := [AppendRow Transacciones row] |})
  ∧ (transactions ++ [row]) !! 2 = Some row
  ∧ (transactions ++ [row]) !! 1 =
      Some [py "2024-01-05"; py "Comida"; py "Mercado"; py "120"].
Proof.
  intros row. split; [exact sample_transactions_lookup|].
  destruct (add_transaction_appends spreadsheet Transacciones transactions
              (py "2024-02-01") (py "Renta") (py "Febrero") (py "450.50")
              sample_transactions_lookup) as (Hrun & _ & Hlast & Hframe).
  split; [exact Hrun|split; [exact Hlast|]].
  by apply Hframe.
Defined.

(** The categories of the sample budget are texts; those of the budget
    with numerals are read as the numbers 2024, 7 and 15. *)
Lemma get_categories_first_column_witness :
  get_categories unicode int_max_str_digits Presupuesto spreadsheet =
    (Returns [Str (py "Comida"); Str (py "Renta"); Str (py "Comida")],
     spreadsheet)
  ∧ get_categories unicode int_max_str_digits Presupuesto coded_spreadsheet =
      (Returns [Int 2024; Int 7; Int 15; Str (py "Renta")],
       coded_spreadsheet).
Proof.
  destruct (get_categories_first_column unicode int_max_str_digits
              spreadsheet Presupuesto budget
              sample_budget_lookup sample_budget_sheet
              sample_budget_has_data) as (df & _ & Hcats & Hfirst).
  destruct (get_categories_first_column unicode int_max_str_digits
              coded_spreadsheet Presupuesto coded_budget
              coded_budget_lookup coded_budget_sheet
              coded_budget_has_data) as (df' & _ & Hcats' & Hfirst').
  split.
  - rewrite Hcats, Hfirst. vm_compute. reflexivity.
  - rewrite Hcats', Hfirst'. vm_compute. reflexivity.
Defined.

(** C6 as stated fails on a budget sheet without data rows:
    [read_budget_data] returns a frame without rows or columns, whose
    first-column values are the empty list, and [get_categories]
    raises. *)
Lemma get_categories_bare_sheet_raises :
  ∃ df,
    read_budget_data unicode int_max_str_digits Presupuesto bare_spreadsheet
    = (Returns df, bare_spreadsheet)
    ∧ first_column df = []
    ∧ get_categories unicode int_max_str_digits Presupuesto bare_spreadsheet
      = (Raises IndexError, bare_spreadsheet)
    ∧ get_categories unicode int_max_str_digits Presupuesto bare_spreadsheet
      ≠ (Returns (first_column df), bare_spreadsheet).
Proof.
  assert (get_categories unicode int_max_str_digits Presupuesto
            bare_spreadsheet =
          (Raises IndexError, bare_spreadsheet)) as Hrun.
  { vm_compute. reflexivity. }
  exists {| columns := []; index := 0; data := [] |}.
  split; [vm_compute; reflexivity|]. split; [reflexivity|].
  split; [exact Hrun|]. rewrite Hrun. discriminate.
Qed.

Lemma update_expense_needs_data_row_witness :
  (∃ b st',
     update_expense unicode int_max_str_digits (py "Renta") (py "75")
       Presupuesto spreadsheet = (Returns b, st'))
  ∧ (∃ l, get_categories unicode int_max_str_digits Presupuesto spreadsheet
          = (Returns l, spreadsheet))
  ∧ update_expense unicode int_max_str_digits (py "Renta") (py "75")
      Presupuesto bare_spreadsheet =
      (Raises IndexError, bare_spreadsheet)
  ∧ get_categories unicode int_max_str_digits Presupuesto bare_spreadsheet =
      (Raises IndexError, bare_spreadsheet).
Proof.
  destruct (update_expense_needs_data_row unicode int_max_str_digits
              spreadsheet Presupuesto budget (py "Renta") (py "75")
              sample_budget_lookup sample_budget_sheet)
    as [Hdata _].
  destruct (update_expense_needs_data_row unicode int_max_str_digits
              bare_spreadsheet Presupuesto bare_budget (py "Renta") (py "75")
              bare_budget_lookup bare_budget_sheet)
    as [_ Hbare].
  destruct (Hdata sample_budget_has_data) as [Hbool Hlist].
  split; [exact Hbool|]. split; [exact Hlist|].
  exact (Hbare eq_refl).
Defined.

End SheetsProofs.

(** * Properties of the finance calculator *)

Module CalculatorProofs.
Import FinanceCalculator.

(** *** Stripping *)

Lemma replace_char_delete (c : N) (s : pystr) :
  replace [c] [] s = filter (λ x, x ≠ c) s.
Proof.
  unfold replace. induction s as [|x s IH]; [done|].
  cbn [replace_from is_prefix length Nat.sub]. rewrite filter_cons.
  destruct (N.eqb_spec c x) as [->|Hne]; simpl.
  - by rewrite decide_False by (intros Hx; by apply Hx).
  - rewrite decide_True by congruence. by rewrite IH.
Qed.

(** The two [replace] calls of the source delete every dollar sign and
    every comma, wherever they are. *)
Lemma replace_replace_delete (s : pystr) :
  replace (py ",") [] (replace (py "$") [] (str s)) = delete_symbols s.
Proof.
  change (py ",") with [44%N]. change (py "$") with [36%N].
  rewrite !replace_char_delete. unfold str, delete_symbols.
  induction s as [|x s IH]; [done|].
  rewrite !(filter_cons _ x).
  destruct (decide (x ≠ 36%N)) as [H36|H36].
  - rewrite filter_cons. destruct (decide (x ≠ 44%N)) as [H44|H44].
    + rewrite decide_True by done. by rewrite IH.
    + rewrite decide_False by (by intros [_ ?]). done.
  - rewrite decide_False by (by intros [? _]). done.
Qed.

Lemma delete_symbols_idemp (s : pystr) :
  delete_symbols (delete_symbols s) = delete_symbols s.
Proof.
  unfold delete_symbols. induction s as [|x s IH]; [done|].
  rewrite filter_cons. case_decide; [|done].
  rewrite filter_cons, decide_True by done. by rewrite IH.
Qed.

(** *** [float] raises nothing but [ValueError] *)

Lemma string_to_double_raises (s : pystr) e :
  string_to_double s = Raises e → e = ValueError.
Proof.
  unfold string_to_double.
  destruct (match strtod s with Some r => Some r | None => parse_inf_or_nan s end)
    as [[x [|c r]]|]; congruence.
Qed.

Lemma float_of_str_raises db (s : pystr) e :
  float_of_str db s = Raises e → e = ValueError.
Proof.
  unfold float_of_str. case_decide.
  - destruct (drop_underscores _ _); [apply string_to_double_raises|congruence].
  - apply string_to_double_raises.
Qed.

(** [calculate_available] by cases on the two conversions. *)
Lemma calculate_available_cases db (budget spent : pystr) :
  calculate_available db budget spent =
  match float_of_str db (delete_symbols budget),
        float_of_str db (delete_symbols spent) with
  | Returns budget_val, Returns spent_val =>
      Returns (SFsub prec emax budget_val spent_val)
  | _, _ => Returns (S754_zero false)
  end.
Proof.
  unfold calculate_available. rewrite !replace_replace_delete.
  destruct (float_of_str db (delete_symbols budget)) as [b|e] eqn:Hb; simpl.
  - destruct (float_of_str db (delete_symbols spent)) as [v|e] eqn:Hv; simpl.
    + done.
    + by rewrite (float_of_str_raises _ _ _ Hv).
  - by rewrite (float_of_str_raises _ _ _ Hb).
Qed.

(** *** The alphabet of [float] *)

(** Membership in a literal, by cases on its characters. *)
Ltac literal_cases H :=
  apply bool_decide_eq_true in H;
  repeat match type of H with
    | context [py ?w] =>
        let l := eval vm_compute in (py w) in change (py w) with l in H
    end;
  repeat (apply elem_of_cons in H as [H|H]; [lia|]);
  by apply elem_of_nil in H.

Lemma is_digit_bounds (c : N) :
  Py_ISDIGIT c = true ↔ (48 ≤ c ∧ c ≤ 57)%N.
Proof.
  unfold Py_ISDIGIT. by rewrite andb_true_iff, !N.leb_le.
Qed.

Lemma consumes_refl s : consumes s s.
Proof. by exists []. Qed.

Lemma consumes_trans s r t : consumes s r → consumes r t → consumes s t.
Proof.
  intros (p & -> & Hp) (q & -> & Hq). exists (p ++ q).
  split; [by rewrite <- (assoc_L (++))|by apply Forall_app].
Qed.

Lemma consumes_cons c s : float_char c = true → consumes (c :: s) s.
Proof. intros Hc. exists [c]. split; [done|]. by repeat constructor. Qed.

Lemma float_char_digit c : Py_ISDIGIT c = true → float_char c = true.
Proof. unfold float_char. by intros ->. Qed.

Lemma parse_sign_consumes s negative s' :
  parse_sign s = (negative, s') → consumes s s'.
Proof.
  destruct s as [|c s]; simpl.
  { intros [= _ <-]. apply consumes_refl. }
  destruct (N.eqb_spec c 45) as [->|_];
    [|destruct (N.eqb_spec c 43) as [->|_]]; intros [= _ <-];
    auto using consumes_refl, consumes_cons.
Qed.

Lemma span_digits_consumes s ds r : span_digits s = (ds, r) → consumes s r.
Proof.
  revert ds. induction s as [|c s IH]; intros ds; simpl.
  { intros [= _ <-]. apply consumes_refl. }
  destruct (Py_ISDIGIT c) eqn:Hc; [|intros [= _ <-]; apply consumes_refl].
  destruct (span_digits s) as [ds' r'] eqn:Hspan. intros [= _ <-].
  eapply consumes_trans; [by apply consumes_cons, float_char_digit|].
  by eapply IH.
Qed.

Lemma parse_exponent_consumes s e r :
  parse_exponent s = (e, r) → consumes s r.
Proof.
  unfold parse_exponent. destruct s as [|c s1].
  { intros [= _ <-]. apply consumes_refl. }
  destruct (N.eqb_spec (Py_TOLOWER c) 101) as [Hc|_];
    [|intros [= _ <-]; apply consumes_refl].
  destruct (parse_sign s1) as [esign s2] eqn:Hsign.
  destruct (span_digits s2) as [[|d ds] s3] eqn:Hspan.
  { intros [= _ <-]. apply consumes_refl. }
  intros [= _ <-].
  eapply consumes_trans; [apply consumes_cons|].
  { unfold float_char. rewrite Hc. by rewrite orb_true_r. }
  eapply consumes_trans;
    eauto using parse_sign_consumes, span_digits_consumes.
Qed.

Lemma strtod_consumes s x r : strtod s = Some (x, r) → consumes s r.
Proof.
  unfold strtod.
  destruct (parse_sign s) as [negative s1] eqn:Hsign.
  destruct (span_digits s1) as [int_part s2] eqn:Hint.
  assert (∀ frac_part s3,
            match s2 with
            | c :: s2' => if (c =? 46)%N then span_digits s2' else ([], s2)
            | [] => ([], s2)
            end = (frac_part, s3) → consumes s2 s3) as Hfrac.
  { intros frac_part s3. destruct s2 as [|c s2'].
    { intros [= _ <-]. apply consumes_refl. }
    destruct (N.eqb_spec c 46) as [->|_];
      [|intros [= _ <-]; apply consumes_refl].
    intros Hspan. eapply consumes_trans; [by apply consumes_cons|].
    by eapply span_digits_consumes. }
  destruct (match s2 with
            | c :: s2' => if (c =? 46)%N then span_digits s2' else ([], s2)
            | [] => ([], s2)
            end) as [frac_part s3] eqn:Hfrac_eq.
  destruct (int_part ++ frac_part); [done|].
  destruct (_ || _); [done|].
  destruct (parse_exponent s3) as [e s4] eqn:Hexp. intros [= _ <-].
  eapply consumes_trans; [by eapply parse_sign_consumes|].
  eapply consumes_trans; [by eapply span_digits_consumes|].
  eapply consumes_trans; [by eapply Hfrac|].
  by eapply parse_exponent_consumes.
Qed.

Lemma is_prefix_app (t s : pystr) :
  is_prefix t s = true → ∃ r, s = t ++ r.
Proof.
  revert s. induction t as [|a t IH]; intros s; simpl; [by exists s|].
  destruct s as [|b s]; [done|].
  intros [->%N.eqb_eq Hts]%andb_true_iff.
  destruct (IH _ Hts) as [r ->]. by exists r.
Qed.

Lemma Py_TOLOWER_cases c :
  (65 ≤ c ≤ 90 ∧ Py_TOLOWER c = c + 32)%N
  ∨ (¬ (65 ≤ c ≤ 90)%N ∧ Py_TOLOWER c = c).
Proof.
  unfold Py_TOLOWER. destruct (N.leb_spec 65 c); destruct (N.leb_spec c 90);
    simpl; [left|right..]; split; (done || lia).
Qed.

Lemma float_char_tolower c :
  float_char (Py_TOLOWER c) = true → float_char c = true.
Proof.
  destruct (Py_TOLOWER_cases c) as [[Hupper Hc]|[_ ->]]; [|done].
  unfold float_char. rewrite Hc.
  destruct (Py_TOLOWER_cases (c + 32)) as [[? _]|[_ ->]]; [lia|].
  intros [[Hd|Hd]%orb_true_iff|Hd]%orb_true_iff.
  - apply is_digit_bounds in Hd. lia.
  - literal_cases Hd.
  - rewrite Hd. by rewrite orb_true_r.
Qed.

Lemma case_insensitive_match_consumes t s r :
  Forall (λ c, float_char c = true) t →
  case_insensitive_match t s = Some r → consumes s r.
Proof.
  intros Ht. unfold case_insensitive_match.
  destruct (is_prefix _ _) eqn:Hpre; [|done]. intros [= <-].
  exists (take (length t) s). split; [by rewrite take_drop|].
  apply is_prefix_app in Hpre as [extra Heq].
  assert (extra = []) as ->.
  { apply (f_equal length) in Heq.
    rewrite length_fmap, length_take, length_app in Heq.
    destruct extra; [done|]. simpl in Heq. lia. }
  rewrite app_nil_r in Heq. rewrite <- Heq in Ht.
  apply Forall_fmap in Ht. eapply Forall_impl; [exact Ht|].
  intros c. simpl. apply float_char_tolower.
Qed.

Lemma parse_inf_or_nan_consumes s x r :
  parse_inf_or_nan s = Some (x, r) → consumes s r.
Proof.
  unfold parse_inf_or_nan.
  destruct (parse_sign s) as [negate s1] eqn:Hsign.
  apply parse_sign_consumes in Hsign.
  assert (∀ word, forallb float_char (py word) = true →
                  Forall (λ c : N, float_char c = true) (py word)) as Hword.
  { intros word Hall. apply Forall_forall. intros c Hc.
    by eapply forallb_forall; [exact Hall|apply list_elem_of_In]. }
  destruct (case_insensitive_match (py "inf") s1) as [s2|] eqn:Hinf.
  - apply case_insensitive_match_consumes in Hinf; [|by apply Hword].
    destruct (case_insensitive_match (py "inity") s2) as [s3|] eqn:Hinity.
    + apply case_insensitive_match_consumes in Hinity; [|by apply Hword].
      intros [= _ <-]. eauto using consumes_trans.
    + intros [= _ <-]. eauto using consumes_trans.
  - destruct (case_insensitive_match (py "nan") s1) as [s2|] eqn:Hnan;
      [|done].
    apply case_insensitive_match_consumes in Hnan; [|by apply Hword].
    intros [= _ <-]. eauto using consumes_trans.
Qed.

Lemma string_to_double_chars s x :
  string_to_double s = Returns x → Forall (λ c, float_char c = true) s.
Proof.
  unfold string_to_double.
  destruct (strtod s) as [[y r]|] eqn:Hstrtod.
  - destruct r; [|done]. intros _.
    apply strtod_consumes in Hstrtod as (p & -> & Hp).
    by rewrite app_nil_r.
  - destruct (parse_inf_or_nan s) as [[y [|c r]]|] eqn:Hword; try done.
    intros _. apply parse_inf_or_nan_consumes in Hword as (p & -> & Hp).
    by rewrite app_nil_r.
Qed.

Lemma drop_underscores_chars (P : N → Prop) prev s s' :
  drop_underscores prev s = Some s' → Forall P s' →
  Forall (λ c, P c ∨ c = 95%N) s.
Proof.
  revert prev s'. induction s as [|c s IH]; intros prev s'; simpl;
    [constructor|].
  destruct (N.eqb_spec c 95) as [->|Hc].
  - destruct (Py_ISDIGIT prev); [|done]. intros Hdrop Hs'.
    constructor; [by right|]. by eapply IH.
  - destruct (_ && _); [done|].
    destruct (drop_underscores c s) as [s''|] eqn:Hdrop; [|done].
    intros [= <-] [Hpc Hs'']%Forall_cons.
    constructor; [by left|]. by eapply IH.
Qed.

Lemma lstrip_chars (P : N → Prop) s :
  Forall P (lstrip s) → Forall (λ c, P c ∨ Py_ISSPACE c = true) s.
Proof.
  induction s as [|c s IH]; simpl; [constructor|].
  destruct (Py_ISSPACE c) eqn:Hc.
  - intros Hs. constructor; [by right|]. by apply IH.
  - intros Hs. eapply Forall_impl; [exact Hs|]. by left.
Qed.

Lemma strip_chars (P : N → Prop) s :
  Forall P (strip s) → Forall (λ c, P c ∨ Py_ISSPACE c = true) s.
Proof.
  unfold strip. rewrite Forall_reverse. intros Hs.
  apply lstrip_chars in Hs. rewrite Forall_reverse in Hs.
  apply lstrip_chars in Hs. eapply Forall_impl; [exact Hs|].
  simpl. tauto.
Qed.

Section alphabet.
Variable db : unicode_db.

Lemma plain_accepted c : (c < 127)%N → plain c → accepted db c = true.
Proof.
  unfold plain, accepted. intros ->%N.ltb_lt [[->| ->]| ->]; try done.
  by rewrite orb_true_r.
Qed.

Lemma plain_below_127 c : plain c → (c < 127)%N.
Proof.
  unfold plain, float_char, Py_ISSPACE, Py_ISDIGIT, Py_TOLOWER.
  intros [[Hc| ->]|Hc]; [| lia |].
  - destruct ((65 <=? c) && (c <=? 90))%N eqn:Hupper.
    { apply andb_true_iff in Hupper as [_ Hhi%N.leb_le]. lia. }
    apply orb_true_iff in Hc as [Hc|Hc];
      [apply orb_true_iff in Hc as [Hc|Hc]|].
    + apply andb_true_iff in Hc as [_ Hc%N.leb_le]. lia.
    + literal_cases Hc.
    + literal_cases Hc.
  - apply orb_true_iff in Hc as [Hc|Hc%N.eqb_eq]; [|lia].
    apply andb_true_iff in Hc as [_ Hc%N.leb_le]. lia.
Qed.

Lemma transform_non_ascii_chars s :
  Forall plain (transform_non_ascii db s) →
  Forall (λ c, accepted db c = true) s.
Proof.
  induction s as [|ch s IH]; simpl; [constructor|].
  destruct (N.ltb_spec ch 127) as [Hlt|Hge].
  - intros [Hch Hs]%Forall_cons.
    constructor; [by apply plain_accepted|by apply IH].
  - assert (accepted db ch =
            Py_UNICODE_ISSPACE db ch
            || bool_decide (is_Some (Py_UNICODE_TODECIMAL db ch))) as Hacc.
    { unfold accepted. by rewrite (proj2 (N.ltb_ge ch 127)). }
    destruct (Py_UNICODE_ISSPACE db ch) eqn:Hspace.
    { intros [_ Hs]%Forall_cons. constructor; [by rewrite Hacc|by apply IH]. }
    destruct (Py_UNICODE_TODECIMAL db ch) as [d|] eqn:Hdigit.
    { intros [_ Hs]%Forall_cons. constructor; [|by apply IH].
      rewrite Hacc. by apply bool_decide_eq_true_2. }
    intros [[[Hbad|Hbad]|Hbad] _]%Forall_cons; done.
Qed.

Lemma transform_decimal_and_space_chars s :
  Forall plain (transform_decimal_and_space db s) →
  Forall (λ c, accepted db c = true) s.
Proof.
  unfold transform_decimal_and_space.
  destruct (forallb _ s); [|apply transform_non_ascii_chars].
  intros Hs. eapply Forall_impl; [exact Hs|]. intros c Hc.
  apply plain_accepted; [by apply plain_below_127|done].
Qed.

(** Every code point of a string that [float] reads is an accepted one. *)
Lemma float_of_str_chars s x :
  float_of_str db s = Returns x → Forall (λ c, accepted db c = true) s.
Proof.
  unfold float_of_str. intros Hfloat.
  apply transform_decimal_and_space_chars, strip_chars.
  case_decide.
  - destruct (drop_underscores 0 _) as [s2|] eqn:Hdrop; [|done].
    apply string_to_double_chars in Hfloat.
    by eapply drop_underscores_chars.
  - apply string_to_double_chars in Hfloat.
    eapply Forall_impl; [exact Hfloat|]. by left.
Qed.

(** A string with a code point that is not accepted is refused. *)
Lemma float_of_str_refuses s c :
  c ∈ s → accepted db c = false → float_of_str db s = Raises ValueError.
Proof.
  intros Hin Hc. destruct (float_of_str db s) as [x|e] eqn:Hfloat.
  - apply float_of_str_chars in Hfloat.
    rewrite Forall_forall in Hfloat. specialize (Hfloat c Hin). congruence.
  - by rewrite (float_of_str_raises _ _ _ Hfloat).
Qed.
End alphabet.

(** *** [calculate_available] *)

Import Samples.

(** What [float] reads and what it refuses: white space around the
    literal, underscores between digits, exponents, infinities, decimal
    digits from other scripts, here the Arabic-Indic 1, 2, 3. *)
Lemma float_of_str_examples :
  float_of_str unicode (py " 1_200.5e-1 ") =
    float_of_str unicode (py "120.05")
  ∧ float_of_str unicode (py "1_200_") = Raises ValueError
  ∧ float_of_str unicode (py "12e") = Raises ValueError
  ∧ float_of_str unicode (py "-Infinity") = Returns (S754_infinity true)
  ∧ float_of_str unicode (py "1e400") = Returns (S754_infinity false)
  ∧ float_of_str unicode [1633; 1634; 1635]%N = Returns (float_of_Z 123)
  ∧ float_of_str unicode (py "$1,200.00") = Raises ValueError
  ∧ float_of_str unicode (py "") = Raises ValueError.
Proof. repeat split; vm_compute; reflexivity. Qed.

(** The sample floats are what [float] reads from their decimal text. *)
Lemma sample_floats db :
  float_of_str db (py "749.50") = Returns f_749_50
  ∧ float_of_str db (py "1234.5") = Returns f_1234_50
  ∧ float_of_str db (py "-1234.5") = Returns f_neg_1234_50.
Proof. repeat split; vm_compute; reflexivity. Qed.

(** [calculate_available] raises nothing, whatever the two strings. *)
Lemma calculate_available_returns db (budget spent : pystr) :
  ∃ x, calculate_available db budget spent = Returns x.
Proof.
  rewrite calculate_available_cases.
  destruct (float_of_str db (delete_symbols budget));
    destruct (float_of_str db (delete_symbols spent)); eauto.
Qed.

(** C2: when [float] refuses one of the two inputs, once the dollar signs
    and commas are deleted, [calculate_available] returns [0.0] and raises
    nothing; so it does on ["abc"] and ["100"]. *)
Theorem calculate_available_unparsable db :
  (∀ budget spent,
     is_raise (float_of_str db (delete_symbols budget)) = true
     ∨ is_raise (float_of_str db (delete_symbols spent)) = true →
     calculate_available db budget spent = Returns (S754_zero false))
  ∧ calculate_available db (py "abc") (py "100") = Returns (S754_zero false).
Proof.
  split; [|vm_compute; reflexivity].
  intros budget spent Hraise. rewrite calculate_available_cases.
  destruct (float_of_str db (delete_symbols budget)); [|done].
  destruct (float_of_str db (delete_symbols spent)); [|done].
  by destruct Hraise.
Qed.

Lemma calculate_available_unparsable_witness :
  is_raise (float_of_str unicode (delete_symbols (py "abc"))) = true
  ∧ calculate_available unicode (py "abc") (py "$1,000") =
      Returns (S754_zero false)
  ∧ calculate_available unicode (py "$1,000") (py "12.5.0") =
      Returns (S754_zero false).
Proof.
  destruct (calculate_available_unparsable unicode) as [Hgen _].
  split; [vm_compute; reflexivity|]. split.
  - apply Hgen. left. vm_compute. reflexivity.
  - apply Hgen. right. vm_compute. reflexivity.
Defined.

(** C3: when [float] reads both inputs, once the dollar signs and commas
    are deleted, [calculate_available] returns the float difference of the
    two numbers, budget minus spent; on ["$1,200.00"] and ["$450.50"] this
    is 749.5. *)
Theorem calculate_available_difference db :
  (∀ budget spent budget_val spent_val,
     float_of_str db (delete_symbols budget) = Returns budget_val →
     float_of_str db (delete_symbols spent) = Returns spent_val →
     calculate_available db budget spent =
       Returns (SFsub prec emax budget_val spent_val))
  ∧ calculate_available db (py "$1,200.00") (py "$450.50") = Returns f_749_50.
Proof.
  split; [|vm_compute; reflexivity].
  intros budget spent b v Hb Hv.
  by rewrite calculate_available_cases, Hb, Hv.
Qed.

Lemma calculate_available_difference_witness :
  float_of_str unicode (delete_symbols (py "$1,200.00")) =
    Returns (float_of_Z 1200)
  ∧ float_of_str unicode (delete_symbols (py "$450.50")) =
      Returns (S754_finite false 7925279813009408 (-44))
  ∧ calculate_available unicode (py "$1,200.00") (py "$450.50") =
      Returns f_749_50.
Proof.
  destruct (calculate_available_difference unicode) as [Hgen _].
  split; [vm_compute; reflexivity|]. split; [vm_compute; reflexivity|].
  rewrite (Hgen (py "$1,200.00") (py "$450.50") (float_of_Z 1200)
             (S754_finite false 7925279813009408 (-44))).
  - vm_compute. reflexivity.
  - vm_compute. reflexivity.
  - vm_compute. reflexivity.
Defined.

(** C8: [calculate_available] gives the same result on an input and on the
    input with every dollar sign and comma deleted, in either argument;
    ["1,2$3"] is treated as ["123"].  Nothing else is deleted: a character
    that [float] does not accept, other than the dollar sign and the comma,
    stays in the input and makes it unparsable, so that the result is
    [0.0]; the Euro sign is such a character, being neither white space nor
    a decimal digit. *)
Theorem calculate_available_deletes_everywhere db :
  (∀ s t,
     calculate_available db s t = calculate_available db (delete_symbols s) t
     ∧ calculate_available db t s = calculate_available db t (delete_symbols s))
  ∧ delete_symbols (py "1,2$3") = py "123"
  ∧ (∀ t, calculate_available db (py "1,2$3") t =
          calculate_available db (py "123") t)
  ∧ (∀ c s t,
       c ∈ s → c ≠ 36%N → c ≠ 44%N → accepted db c = false →
       c ∈ delete_symbols s
       ∧ float_of_str db (delete_symbols s) = Raises ValueError
       ∧ calculate_available db s t = Returns (S754_zero false)
       ∧ calculate_available db t s = Returns (S754_zero false))
  ∧ (Py_UNICODE_ISSPACE db euro = false →
     Py_UNICODE_TODECIMAL db euro = None →
     accepted db euro = false).
Proof.
  assert (∀ s t,
    calculate_available db s t = calculate_available db (delete_symbols s) t
    ∧ calculate_available db t s = calculate_available db t (delete_symbols s))
    as Hgen.
  { intros s t. by rewrite !calculate_available_cases, !delete_symbols_idemp. }
  split; [exact Hgen|]. split; [reflexivity|].
  split; [intros t; apply (Hgen (py "1,2$3") t)|]. split.
  - intros c s t Hin H36 H44 Hc.
    assert (c ∈ delete_symbols s) as Hkept.
    { unfold delete_symbols. by apply list_elem_of_filter. }
    pose proof (float_of_str_refuses db _ c Hkept Hc) as Hfloat.
    split; [done|]. split; [done|].
    rewrite !calculate_available_cases, Hfloat.
    split; [done|]. by destruct (float_of_str db (delete_symbols t)).
  - intros Hspace Hdigit. unfold accepted.
    change (euro <? 127)%N with false. cbn iota. by rewrite Hspace, Hdigit.
Qed.

Lemma calculate_available_deletes_everywhere_witness :
  Py_UNICODE_ISSPACE unicode euro = false
  ∧ Py_UNICODE_TODECIMAL unicode euro = None
  ∧ calculate_available unicode (euro :: py "100") (py "50") =
      Returns (S754_zero false)
  ∧ calculate_available unicode (py "$1,2,0$0.0,0") (py "$450.50") =
      Returns f_749_50.
Proof.
  destruct (calculate_available_deletes_everywhere unicode)
    as (Hgen & _ & _ & Hother & Heuro).
  split; [reflexivity|]. split; [reflexivity|]. split.
  - destruct (Hother euro (euro :: py "100") (py "50")) as (_ & _ & Hrun & _).
    + apply list_elem_of_here.
    + discriminate.
    + discriminate.
    + by apply Heuro.
    + exact Hrun.
  - destruct (Hgen (py "$1,2,0$0.0,0") (py "$450.50")) as [-> _].
    vm_compute. reflexivity.
Defined.

(** *** [format_currency] *)

Lemma digit_not_comma (c : N) : Py_ISDIGIT c = true → (c =? 44)%N = false.
Proof. rewrite is_digit_bounds. intros Hc. apply N.eqb_neq. lia. Qed.

Lemma digit_not_minus (c : N) :
  Py_ISDIGIT c = true ∨ c = 44%N → (c =? 45)%N = false.
Proof. rewrite is_digit_bounds. intros Hc. apply N.eqb_neq. lia. Qed.

Lemma uint_chars_digits u : Forall (λ c, Py_ISDIGIT c = true) (uint_chars u).
Proof. induction u; by constructor. Qed.

Lemma decimal_digits n : Forall (λ c, Py_ISDIGIT c = true) (decimal n).
Proof. apply uint_chars_digits. Qed.

Lemma decimal_nonempty n : decimal n ≠ [].
Proof.
  unfold decimal. destruct n as [|p]; [done|]. simpl.
  pose proof (DecimalPos.Unsigned.to_uint_nonnil p) as Hnil.
  by destruct (Pos.to_uint p).
Qed.

(** The digits of [n] read back as a number give [n]. *)
Lemma digits_value_uint_chars u acc :
  foldl (λ a d, 10 * a + (Z.of_N d - 48))%Z
    (Z.of_N (DecimalPos.Unsigned.of_lu acc)) (uint_chars u) =
  Z.of_N (DecimalPos.Unsigned.of_lu (Decimal.revapp u acc)).
Proof.
  revert acc.
  induction u; intros acc; cbn [uint_chars foldl Decimal.revapp]; [done|..];
    rewrite <- IHu; f_equal; cbn [DecimalPos.Unsigned.of_lu]; lia.
Qed.

Lemma digits_value_decimal n : digits_value (decimal n) = Z.of_N n.
Proof.
  unfold digits_value, decimal.
  etrans; [exact (digits_value_uint_chars (N.to_uint n) Decimal.Nil)|].
  change (Decimal.revapp (N.to_uint n) Decimal.Nil)
    with (Decimal.rev (N.to_uint n)).
  rewrite <- DecimalPos.Unsigned.of_uint_alt.
  change (Pos.of_uint (N.to_uint n)) with (N.of_uint (N.to_uint n)).
  by rewrite DecimalN.Unsigned.of_to.
Qed.

Lemma two_digits_digits n :
  (n < 100)%N → Forall (λ c, Py_ISDIGIT c = true) (two_digits n).
Proof.
  intros Hn. unfold two_digits.
  assert (n / 10 < 10)%N as Hq by (apply N.Div0.div_lt_upper_bound; lia).
  assert (n mod 10 < 10)%N as Hr by (by apply N.mod_lt).
  revert Hq Hr. generalize (n / 10)%N (n mod 10)%N. intros q r Hq Hr.
  apply Forall_cons_2; [|apply Forall_cons_2; [|constructor]].
  - apply is_digit_bounds. lia.
  - apply is_digit_bounds. lia.
Qed.

(** The commas go between groups of three, and only there. *)
Lemma insert_commas_grouped k (ds : pystr) :
  k ≤ 3 → Forall (λ c, Py_ISDIGIT c = true) ds → ds ≠ [] ∨ 0 < k →
  grouped_from_right k (insert_commas k ds) = true.
Proof.
  intros Hk Hds. revert k Hk. induction Hds as [|d ds Hd _ IH];
    intros k Hk Hne.
  - destruct Hne as [?|?]; [done|]. simpl. by apply bool_decide_eq_true_2.
  - pose proof (digit_not_comma d Hd) as Hd'.
    destruct k as [|[|[|[|k]]]]; [..|lia]; simpl; rewrite ?Hd', ?Hd; simpl;
      apply IH; auto with lia.
Qed.

Lemma insert_commas_chars k (ds : pystr) :
  Forall (λ c, Py_ISDIGIT c = true) ds →
  Forall (λ c, Py_ISDIGIT c = true ∨ c = 44%N) (insert_commas k ds).
Proof.
  intros Hds. revert k. induction Hds as [|d ds Hd _ IH]; intros k;
    [constructor|].
  destruct k as [|[|[|[|k]]]]; simpl;
    try (apply Forall_cons_2; [by right|]);
    (apply Forall_cons_2; [by left|apply IH]).
Qed.

Lemma insert_commas_filter k (ds : pystr) :
  Forall (λ c, Py_ISDIGIT c = true) ds →
  filter (λ c, Py_ISDIGIT c = true) (insert_commas k ds) = ds.
Proof.
  intros Hds. revert k. induction Hds as [|d ds Hd _ IH]; intros k; [done|].
  destruct k as [|[|[|[|k]]]]; simpl;
    rewrite ?(filter_cons_False _ 44%N) by done;
    rewrite filter_cons_True by done; by rewrite IH.
Qed.

Lemma filter_digits_id (ds : pystr) :
  Forall (λ c, Py_ISDIGIT c = true) ds →
  filter (λ c, Py_ISDIGIT c = true) ds = ds.
Proof.
  induction 1 as [|d ds Hd _ IH]; [done|].
  by rewrite filter_cons_True, IH.
Qed.

Lemma group_thousands_filter (ds : pystr) :
  Forall (λ c, Py_ISDIGIT c = true) ds →
  filter (λ c, Py_ISDIGIT c = true) (group_thousands ds) = ds.
Proof.
  intros Hds. unfold group_thousands.
  rewrite filter_reverse, insert_commas_filter by by apply Forall_reverse.
  apply reverse_involutive.
Qed.

(** The nearest integer is at most half a unit away. *)
Lemma round_half_even_nearest (num den : Z) :
  (0 < den)%Z →
  (Z.abs (2 * (den * round_half_even num den - num)) ≤ den)%Z.
Proof.
  intros Hden. unfold round_half_even.
  pose proof (Z.div_mod num den ltac:(lia)) as Hdm.
  pose proof (Z.mod_pos_bound num den Hden) as Hr.
  revert Hdm Hr. generalize (num / den)%Z (num mod den)%Z. intros q r Hdm Hr.
  destruct (Z.compare_spec (2 * r) den); [destruct (Z.even q)|..]; nia.
Qed.

(** The hundredths of a finite float are its absolute value times 100,
    exactly when that is an integer and to the nearest integer otherwise. *)
Lemma hundredths_nearest s m e :
  let h := Z.of_N (hundredths (S754_finite s m e)) in
  ((0 ≤ e)%Z → h = (Zpos m * 2 ^ e * 100)%Z)
  ∧ ((e < 0)%Z →
     (Z.abs (2 * (2 ^ (- e) * h - Zpos m * 100)) ≤ 2 ^ (- e))%Z).
Proof.
  simpl. split; intros He.
  - rewrite (proj2 (Z.leb_le 0 e)) by done.
    pose proof (Z.pow_pos_nonneg 2 e). lia.
  - rewrite (proj2 (Z.leb_gt 0 e)) by done.
    assert (0 < 2 ^ (- e))%Z as Hden by (apply Z.pow_pos_nonneg; lia).
    pose proof (round_half_even_nearest (Zpos m * 100) _ Hden) as Hnear.
    assert (0 ≤ round_half_even (Z.pos m * 100) (2 ^ (- e)))%Z as Hpos.
    { unfold round_half_even.
      pose proof (Z.div_pos (Zpos m * 100) (2 ^ (- e)) ltac:(lia) Hden).
      destruct (_ ?= _)%Z; [destruct (Z.even _)|..]; lia. }
    by rewrite Z2N.id.
Qed.

(** The rendering of a finite amount, part by part. *)
Lemma format_currency_finite (x : float) :
  is_finite x = true →
  ∃ s, format_currency x =
       36%N :: sign_chars s
         ++ group_thousands (decimal (hundredths x / 100))
         ++ 46%N :: two_digits (hundredths x mod 100).
Proof. destruct x as [s|s| |s m e]; intros Hfin; try done; by exists s. Qed.

Lemma currency_rendering_intro (s : bool) (ds : pystr) (d1 d2 : N) :
  ds ≠ [] → Forall (λ c, Py_ISDIGIT c = true) ds →
  Py_ISDIGIT d1 = true → Py_ISDIGIT d2 = true →
  is_currency_rendering
    (36%N :: sign_chars s ++ group_thousands ds ++ [46%N; d1; d2]) = true.
Proof.
  intros Hne Hds Hd1 Hd2. unfold is_currency_rendering.
  assert (match sign_chars s ++ group_thousands ds ++ [46%N; d1; d2] with
          | c :: b => if (c =? 45)%N then b
                      else sign_chars s ++ group_thousands ds ++ [46%N; d1; d2]
          | [] => sign_chars s ++ group_thousands ds ++ [46%N; d1; d2]
          end = group_thousands ds ++ [46%N; d1; d2]) as ->.
  { destruct s; [done|]. simpl.
    pose proof (insert_commas_chars 0 (reverse ds)) as Hchars.
    apply Forall_reverse in Hchars; [|by apply Forall_reverse].
    fold (group_thousands ds) in Hchars.
    destruct (group_thousands ds) as [|c G]; [done|].
    apply Forall_cons in Hchars as [Hc _]. simpl.
    by rewrite (digit_not_minus c Hc). }
  rewrite reverse_app. unfold group_thousands. rewrite reverse_involutive.
  change (reverse [46%N; d1; d2]) with [d2; d1; 46%N]. simpl.
  rewrite Hd1, Hd2. simpl. apply insert_commas_grouped; [lia| |].
  - by apply Forall_reverse.
  - left. intros Hnil. apply Hne. by rewrite <- (reverse_involutive ds), Hnil.
Qed.

(** C4, amended: for every finite amount the rendering is a dollar sign,
    an optional minus sign, digits in groups of three separated by commas,
    a point and exactly two digits; read as a number of hundredths, its
    digits are the amount times 100 rounded to an integer. So 1234.5 gives
    ["$1,234.50"]. *)
Theorem format_currency_rendering :
  (∀ amount,
     is_finite amount = true →
     is_currency_rendering (format_currency amount) = true
     ∧ digits_value (filter (λ c, Py_ISDIGIT c = true) (format_currency amount))
       = Z.of_N (hundredths amount))
  ∧ format_currency f_1234_50 = py "$1,234.50".
Proof.
  split; [|vm_compute; reflexivity].
  intros amount Hfin.
  destruct (format_currency_finite amount Hfin) as [s ->].
  set (h := hundredths amount).
  assert (h mod 100 < 100)%N as Hlt by (by apply N.mod_lt).
  pose proof (two_digits_digits _ Hlt) as Htwo. split.
  - unfold two_digits in *.
    apply Forall_cons in Htwo as [Hd1 Htwo].
    apply Forall_cons in Htwo as [Hd2 _].
    apply currency_rendering_intro;
      auto using decimal_nonempty, decimal_digits.
  - rewrite filter_cons_False by done. rewrite !filter_app.
    rewrite group_thousands_filter by apply decimal_digits.
    rewrite filter_cons_False by done.
    rewrite (filter_digits_id _ Htwo).
    assert (filter (λ c, Py_ISDIGIT c = true) (sign_chars s) = []) as ->
      by by destruct s.
    simpl. unfold digits_value. rewrite foldl_app.
    fold (digits_value (decimal (h / 100))). rewrite digits_value_decimal.
    unfold two_digits. simpl.
    pose proof (N.div_mod h 100 ltac:(done)) as Hh.
    pose proof (N.div_mod (h mod 100) 10 ltac:(done)) as Hn.
    revert Hh Hn.
    generalize (h / 100)%N (h mod 100 / 10)%N ((h mod 100) mod 10)%N.
    generalize (h mod 100)%N. intros n q d1 d2 Hh Hn. lia.
Qed.

Lemma format_currency_rendering_witness :
  is_finite f_1234_50 = true
  ∧ is_currency_rendering (format_currency f_1234_50) = true
  ∧ digits_value (filter (λ c, Py_ISDIGIT c = true) (format_currency f_1234_50))
    = 123450%Z.
Proof.
  destruct format_currency_rendering as [Hgen _].
  split; [reflexivity|]. destruct (Hgen f_1234_50 eq_refl) as [Hshape Hvalue].
  split; [exact Hshape|]. rewrite Hvalue. vm_compute. reflexivity.
Defined.

(** C4 as stated fails on the float infinity, which is a numeric amount: its
    rendering has neither digits nor a point. *)
Lemma format_currency_infinity :
  format_currency (S754_infinity false) = py "$inf"
  ∧ is_currency_rendering (format_currency (S754_infinity false)) = false.
Proof. split; vm_compute; reflexivity. Qed.

(** C9: for every negative amount the rendering starts with the dollar
    sign and has the minus sign right after it; -1234.5 gives
    ["$-1,234.50"], not ["-$1,234.50"]. *)
Theorem format_currency_negative :
  (∀ amount,
     is_negative amount = true →
     ∃ rest, format_currency amount = py "$-" ++ rest)
  ∧ format_currency f_neg_1234_50 = py "$-1,234.50"
  ∧ format_currency f_neg_1234_50 ≠ py "-$1,234.50".
Proof.
  split; [|split; [vm_compute; reflexivity|by vm_compute]].
  intros amount Hneg.
  destruct amount as [s|s| |s m e]; try done;
    destruct s; try done; eexists; reflexivity.
Qed.

Lemma format_currency_negative_witness :
  is_negative f_neg_1234_50 = true
  ∧ ∃ rest, format_currency f_neg_1234_50 = py "$-" ++ rest.
Proof.
  destruct format_currency_negative as [Hgen _].
  split; [reflexivity|]. by apply Hgen.
Defined.

(** *** [get_status_indicator] *)

Ltac compare_cases :=
  repeat match goal with
    | H : context [Z.compare ?x ?y] |- _ => destruct (Z.compare_spec x y)
    | H : context [Pos.compare ?x ?y] |- _ => destruct (Pos.compare_spec x y)
    | |- context [Z.compare ?x ?y] => destruct (Z.compare_spec x y)
    | |- context [Pos.compare ?x ?y] => destruct (Pos.compare_spec x y)
    end;
  simpl in *; try done; try lia.

(** The comparison of floats is an order: a threshold below [a], or at
    most [a], is so for everything from [a] up. *)
Lemma SFltb_SFleb_trans (t a b : float) :
  SFltb t a = true → SFleb a b = true → SFltb t b = true.
Proof.
  unfold SFltb, SFleb, SFcompare.
  change (Pos.compare_cont Eq) with Pos.compare.
  destruct t as [[]|[]| |[] mt et]; destruct a as [[]|[]| |[] ma ea];
    try done; destruct b as [[]|[]| |[] mb eb]; try done;
    intros Hta Hab; compare_cases.
Qed.

Lemma SFleb_trans (t a b : float) :
  SFleb t a = true → SFleb a b = true → SFleb t b = true.
Proof.
  unfold SFleb, SFcompare.
  change (Pos.compare_cont Eq) with Pos.compare.
  destruct t as [[]|[]| |[] mt et]; destruct a as [[]|[]| |[] ma ea];
    try done; destruct b as [[]|[]| |[] mb eb]; try done;
    intros Hta Hab; compare_cases.
Qed.

Section status_proofs.
Context {status : Type}.
Variables (last_status : status).
Implicit Types (bands : list (@band status)).

Lemma in_band_upward (b : @band status) x y :
  in_band b x = true → SFleb x y = true → in_band b y = true.
Proof.
  unfold in_band. destruct (inclusive b);
    eauto using SFleb_trans, SFltb_SFleb_trans.
Qed.

Lemma band_from_lower_bound n bands a :
  n ≤ (band_from last_status n bands a).1.
Proof.
  revert n. induction bands as [|b bands IH]; intros n; simpl; [done|].
  destruct (in_band b a); simpl; [done|]. specialize (IH (S n)). lia.
Qed.

Lemma band_from_status n bands a :
  ((band_status <$> bands) ++ [last_status])
    !! ((band_from last_status n bands a).1 - n)
  = Some (band_from last_status n bands a).2.
Proof.
  revert n. induction bands as [|b bands IH]; intros n; simpl.
  - by rewrite Nat.sub_diag.
  - destruct (in_band b a); simpl; [by rewrite Nat.sub_diag|].
    pose proof (band_from_lower_bound (S n) bands a) as Hn.
    specialize (IH (S n)).
    replace ((band_from last_status (S n) bands a).1 - n)
      with (S ((band_from last_status (S n) bands a).1 - S n)) by lia.
    done.
Qed.

Lemma band_from_monotone n bands x y :
  SFleb x y = true →
  (band_from last_status n bands y).1 ≤ (band_from last_status n bands x).1.
Proof.
  intros Hxy. revert n.
  induction bands as [|b bands IH]; intros n; simpl; [done|].
  destruct (in_band b x) eqn:Hbx.
  - by rewrite (in_band_upward b x y Hbx Hxy).
  - destruct (in_band b y); simpl; [|apply IH].
    pose proof (band_from_lower_bound (S n) bands x). lia.
Qed.
End status_proofs.

(** C7: with the bands of the function numbered in the order they are
    tested, the first being the most favourable, the status returned is the
    status of the band the amount falls into; if [a <= b] then the band of
    [b] is the band of [a] or a more favourable one, whatever the lower
    bands are; and every amount above 1000 is in the first band and gets
    its status. *)
Theorem get_status_indicator_monotone {status : Type}
    (first_status : status) (lower_bands : list (@band status))
    (last_status : status) :
  (∀ a,
     statuses first_status lower_bands last_status
       !! (status_band first_status lower_bands last_status a).1
     = Some (get_status_indicator first_status lower_bands last_status a))
  ∧ (∀ a b,
     SFleb a b = true →
     (status_band first_status lower_bands last_status b).1
     ≤ (status_band first_status lower_bands last_status a).1)
  ∧ (∀ a,
       SFltb (float_of_Z 1000) a = true →
       status_band first_status lower_bands last_status a = (0, first_status)
       ∧ get_status_indicator first_status lower_bands last_status a
         = first_status).
Proof.
  split; [|split].
  - intros a. unfold get_status_indicator, status_band, statuses.
    pose proof (band_from_status last_status 0
                  (Band false (float_of_Z 1000) first_status :: lower_bands)
                  a) as Hs.
    by rewrite Nat.sub_0_r in Hs.
  - intros a b Hab. by apply band_from_monotone.
  - intros a Ha. unfold get_status_indicator, status_band.
    cbn [band_from in_band inclusive threshold]. by rewrite Ha.
Qed.

Lemma get_status_indicator_monotone_witness :
  SFleb f_749_50 f_1234_50 = true
  ∧ status_band "first" lower_bands "last" f_749_50 = (1, "second")
  ∧ status_band "first" lower_bands "last" f_1234_50 = (0, "first")
  ∧ status_band "first" lower_bands "last" f_neg_1234_50 = (3, "last")
  ∧ (status_band "first" lower_bands "last" f_1234_50).1
    ≤ (status_band "first" lower_bands "last" f_749_50).1.
Proof.
  destruct (get_status_indicator_monotone "first" lower_bands "last")
    as (_ & Hmono & Htop).
  split; [reflexivity|]. split; [reflexivity|]. split.
  - by apply Htop.
  - split; [reflexivity|]. by apply Hmono.
Defined.

End CalculatorProofs.

(** * Further properties of the spreadsheet gateway *)

Module SheetsExtras.
Import Python GoogleSheetsManager SheetsProofs.

Section reads.
Context (db : unicode_db) (limit : N).
Implicit Types (ws : worksheet) (st : remote).

Lemma read_budget_data_reads st name :
  read_budget_data db limit name st =
  (frame_of db limit (sheets st !! name), st).
Proof.
  unfold read_budget_data, bind, get_worksheet, get_all_records, bind,
    get_all_values, frame_of, records_of.
  destruct (sheets st !! name) as [ws|] eqn:Hws; [|done]. rewrite Hws.
  destruct (fill_gaps ws) as [|keys values]; [done|].
  by destruct (decide (NoDup keys)).
Qed.

Lemma read_transactions_reads st name :
  read_transactions db limit name st =
  (frame_of db limit (sheets st !! name), st).
Proof. apply read_budget_data_reads. Qed.

Lemma get_categories_reads st name :
  get_categories db limit name st =
  (categories_of db limit (sheets st !! name), st).
Proof.
  unfold get_categories, bind, categories_of.
  rewrite read_budget_data_reads.
  by destruct (frame_of db limit (sheets st !! name)).
Qed.

(** X1: the reading methods write nothing: whatever they return or raise,
    the worksheets and the journal of requests are as before. *)
Theorem reading_writes_nothing st name :
  (read_budget_data db limit name st).2 = st
  ∧ (read_transactions db limit name st).2 = st
  ∧ (get_categories db limit name st).2 = st.
Proof.
  by rewrite read_budget_data_reads, read_transactions_reads,
    get_categories_reads.
Qed.

(** X2: on a worksheet name the spreadsheet does not have, every method
    raises [WorksheetNotFound] and writes nothing. *)
Theorem missing_worksheet_raises st name (category amount date descr : pystr) :
  sheets st !! name = None →
  read_budget_data db limit name st = (Raises WorksheetNotFound, st)
  ∧ read_transactions db limit name st = (Raises WorksheetNotFound, st)
  ∧ get_categories db limit name st = (Raises WorksheetNotFound, st)
  ∧ update_expense db limit category amount name st
    = (Raises WorksheetNotFound, st)
  ∧ add_transaction date category descr amount name st
    = (Raises WorksheetNotFound, st).
Proof.
  intros Hnone.
  rewrite read_budget_data_reads, read_transactions_reads,
    get_categories_reads, Hnone.
  repeat split; try done.
  - unfold update_expense, bind, get_worksheet. by rewrite Hnone.
  - unfold add_transaction, bind, get_worksheet. by rewrite Hnone.
Qed.
End reads.

Section effects.
Context (db : unicode_db) (limit : N).
Implicit Types (ws : worksheet) (st : remote).

Lemma length_set_at {A} (d : A) i x (l : list A) :
  length (set_at d i x l) = length l `max` S i.
Proof.
  unfold set_at. rewrite length_insert, length_app, length_replicate. lia.
Qed.


Lemma length_write_cell ws i j v :
  i < length ws → length (write_cell ws i j v) = length ws.
Proof. intros Hi. unfold write_cell. rewrite length_set_at. lia. Qed.

Lemma masked_index_bound pos (mask : list bool) x :
  x ∈ masked_index pos mask → pos ≤ x < pos + length mask.
Proof.
  revert pos. induction mask as [|b mask IH]; intros pos; simpl.
  { by intros ?%elem_of_nil. }
  destruct b.
  - intros [->|Hx%IH]%elem_of_cons; lia.
  - intros Hx%IH. lia.
Qed.

Lemma length_fill_gaps ws : length (fill_gaps ws) = length ws.
Proof. unfold fill_gaps. by rewrite length_fmap. Qed.

(** A column of a frame is not longer than the list of records. *)
Lemma length_frame_column (records : list record) j :
  length (default [] (data (pd_DataFrame records) !! j)) ≤ length records.
Proof.
  unfold pd_DataFrame. simpl. rewrite list_lookup_fmap.
  destruct (unique_keys records !! j); simpl; [|lia].
  by rewrite length_maybe_convert_objects, length_fmap.
Qed.

(** What [update_expense] does to the spreadsheet, in every case. *)
Lemma update_expense_effect st name (category amount : pystr) :
  let '(o, st') := update_expense db limit category amount name st in
  (o = Returns true
   ∧ ∃ ws r,
       sheets st !! name = Some ws
       ∧ 2 ≤ r ≤ length ws
       ∧ st' = {| sheets := <[name := write_cell ws (r - 1) 2 amount]>
                              (sheets st);
                  journal := journal st ++ [UpdateCell name r 3 amount] |}
       ∧ length (write_cell ws (r - 1) 2 amount) = length ws)
  ∨ (o ≠ Returns true ∧ st' = st).
Proof.
  unfold update_expense, bind at 1, get_worksheet.
  destruct (sheets st !! name) as [ws|] eqn:Hws; [|by right].
  unfold bind at 1, get_all_records, bind at 1, get_all_values. rewrite Hws.
  pose proof (length_fill_gaps ws) as Hlen.
  destruct (fill_gaps ws) as [|keys values].
  { by right. }
  destruct (decide (NoDup keys)); [|by right]. unfold ret at 1.
  set (records := zip keys <$> (numericise_all db limit <$> values)).
  assert (length records = length values) as Hrecords.
  { unfold records. by rewrite !length_fmap. }
  set (df := pd_DataFrame records).
  unfold bind at 1, lift at 1.
  destruct (getitem (columns df) 0) as [k0|e]; [|by right].
  unfold bind at 1, lift at 1, column.
  destruct (list_find _ (columns df)) as [[j c]|]; [|by right].
  set (mask := series_eq _ category).
  assert (length mask ≤ length values) as Hmask.
  { unfold mask, series_eq, df. rewrite length_fmap, <- Hrecords.
    apply length_frame_column. }
  destruct (any mask); [|by right].
  unfold bind at 1, lift at 1, getitem.
  destruct (masked_index 0 mask !! 0) as [first|] eqn:Hfirst; [|by right].
  apply list_elem_of_lookup_2, masked_index_bound in Hfirst.
  unfold bind. rewrite (update_cell_run st name ws first amount Hws).
  left. split; [done|]. exists ws, (first + 2). simpl in Hlen.
  replace (first + 2 - 1) with (S first) by lia.
  repeat split; try done; try lia.
  apply length_write_cell. lia.
Qed.

(** X3: [update_expense] writes at most once, and only when it returns
    [True]: then it has sent one cell update, to column 3 of a row below
    the header that the sheet already has, so that the sheet keeps its
    number of rows.  In every other outcome, [False] or an exception, the
    worksheets and the journal are as before. *)
Theorem update_expense_writes_once st name (category amount : pystr) :
  let '(o, st') := update_expense db limit category amount name st in
  (o = Returns true
   ∧ ∃ ws r,
       sheets st !! name = Some ws
       ∧ 2 ≤ r ≤ length ws
       ∧ st' = {| sheets := <[name := write_cell ws (r - 1) 2 amount]>
                              (sheets st);
                  journal := journal st ++ [UpdateCell name r 3 amount] |}
       ∧ length (write_cell ws (r - 1) 2 amount) = length ws)
  ∨ (o ≠ Returns true ∧ st' = st).
Proof. apply update_expense_effect. Qed.
End effects.

Section tables.
Implicit Types (ws : worksheet) (row : list pystr).






End tables.

Section compositions.
Context (db : unicode_db) (limit : N).
Implicit Types (ws : worksheet) (st : remote).









End compositions.

Section appends.
Context (db : unicode_db) (limit : N).
Implicit Types (ws : worksheet) (st : remote).




Lemma add_transaction_other st name other
    (date category description amount : pystr) :
  other ≠ name →
  sheets (add_transaction date category description amount name st).2
    !! other = sheets st !! other.
Proof.
  intros Hne. unfold add_transaction, bind, get_worksheet, append_row.
  destruct (sheets st !! name) as [ws|] eqn:Hws; [|done].
  rewrite Hws. simpl. by rewrite lookup_insert_ne.
Qed.

Lemma update_expense_other st name other (category amount : pystr) :
  other ≠ name →
  sheets (update_expense db limit category amount name st).2 !! other
  = sheets st !! other.
Proof.
  intros Hne.
  pose proof (update_expense_effect db limit st name category amount)
    as Heffect.
  destruct (update_expense db limit category amount name st) as [o st'].
  destruct Heffect as [(_ & ws & r & _ & _ & -> & _)|[_ ->]]; [|done].
  simpl. by rewrite lookup_insert_ne.
Qed.

(** X8: a write to one worksheet leaves what is read from another as it
    was.  After [add_transaction] or [update_expense] on worksheet [name],
    whatever their outcome, [read_budget_data], [read_transactions] and
    [get_categories] on a worksheet of another name return what they
    returned before. *)
Theorem writes_keep_other_worksheets st name other
    (date category description amount : pystr) :
  other ≠ name →
  let st1 := (add_transaction date category description amount name st).2 in
  let st2 := (update_expense db limit category amount name st).2 in
  (read_budget_data db limit other st1).1
  = (read_budget_data db limit other st).1
  ∧ (read_transactions db limit other st1).1
    = (read_transactions db limit other st).1
  ∧ (get_categories db limit other st1).1
    = (get_categories db limit other st).1
  ∧ (read_budget_data db limit other st2).1
    = (read_budget_data db limit other st).1
  ∧ (read_transactions db limit other st2).1
    = (read_transactions db limit other st).1
  ∧ (get_categories db limit other st2).1
    = (get_categories db limit other st).1.
Proof.
  intros Hne st1 st2.
  rewrite ?read_budget_data_reads, ?read_transactions_reads,
    ?get_categories_reads. simpl. unfold st1, st2.
  rewrite (add_transaction_other st name other) by done.
  by rewrite (update_expense_other st name other) by done.
Qed.
End appends.

(** *** On the sample spreadsheets *)

Import Samples.







Lemma missing_worksheet_raises_witness :
  sheets spreadsheet !! "Ahorros" = None
  ∧ update_expense unicode int_max_str_digits (py "Comida") (py "75")
      "Ahorros" spreadsheet
    = (Raises WorksheetNotFound, spreadsheet)
  ∧ get_categories unicode int_max_str_digits "Ahorros" spreadsheet
    = (Raises WorksheetNotFound, spreadsheet).
Proof.
  assert (sheets spreadsheet !! "Ahorros" = None) as Hnone
    by (vm_compute; reflexivity).
  destruct (missing_worksheet_raises unicode int_max_str_digits spreadsheet
              "Ahorros" (py "Comida") (py "75") (py "2024-02-01")
              (py "Mercado") Hnone)
    as (_ & _ & Hcats & Hupdate & _).
  split; [exact Hnone|]. split; [exact Hupdate|exact Hcats].
Defined.






Lemma writes_keep_other_worksheets_witness :
  Presupuesto ≠ Transacciones
  ∧ (get_categories unicode int_max_str_digits Presupuesto
       (add_transaction (py "2024-02-01") (py "Renta") (py "Febrero")
          (py "450.50") Transacciones spreadsheet).2).1
    = Returns [Str (py "Comida"); Str (py "Renta"); Str (py "Comida")].
Proof.
  assert (Presupuesto ≠ Transacciones) as Hne by discriminate.
  destruct (writes_keep_other_worksheets unicode int_max_str_digits
              spreadsheet Transacciones Presupuesto (py "2024-02-01")
              (py "Renta") (py "Febrero") (py "450.50") Hne)
    as (_ & _ & Hcats & _).
  split; [exact Hne|]. rewrite Hcats. vm_compute. reflexivity.
Defined.

End SheetsExtras.

(** * Further properties of the finance calculator *)

Module CalculatorExtras.
Import FinanceCalculator CalculatorProofs Samples.

(** *** Equal amounts *)

Lemma SFsub_diag (x : float) :
  is_finite x = true → SFsub prec emax x x = S754_zero false.
Proof.
  destruct x as [[]|[]| |s m e]; try done. intros _. simpl.
  by rewrite Z.sub_diag.
Qed.

(** X9: [calculate_available] never raises; and when the two inputs read
    as the same finite number, written alike or not, the result is exactly
    [0.0]. *)
Theorem calculate_available_equal_amounts db :
  (∀ budget spent, ∃ x, calculate_available db budget spent = Returns x)
  ∧ (∀ budget spent x,
       float_of_str db (delete_symbols budget) = Returns x →
       float_of_str db (delete_symbols spent) = Returns x →
       is_finite x = true →
       calculate_available db budget spent = Returns (S754_zero false)).
Proof.
  split.
  - intros budget spent. rewrite calculate_available_cases.
    destruct (float_of_str db (delete_symbols budget));
      destruct (float_of_str db (delete_symbols spent)); eauto.
  - intros budget spent x Hb Hs Hfin.
    by rewrite calculate_available_cases, Hb, Hs, SFsub_diag.
Qed.

Lemma calculate_available_equal_amounts_witness :
  float_of_str unicode (delete_symbols (py "$1,200.00")) =
    Returns (float_of_Z 1200)
  ∧ float_of_str unicode (delete_symbols (py " 1_200 ")) =
      Returns (float_of_Z 1200)
  ∧ calculate_available unicode (py "$1,200.00") (py " 1_200 ") =
      Returns (S754_zero false).
Proof.
  destruct (calculate_available_equal_amounts unicode) as [_ Heq].
  assert (float_of_str unicode (delete_symbols (py "$1,200.00")) =
          Returns (float_of_Z 1200)) as Hb by (vm_compute; reflexivity).
  assert (float_of_str unicode (delete_symbols (py " 1_200 ")) =
          Returns (float_of_Z 1200)) as Hs by (vm_compute; reflexivity).
  split; [exact Hb|]. split; [exact Hs|].
  by apply (Heq _ _ (float_of_Z 1200)).
Defined.

(** *** Reading a plain decimal *)

Lemma span_digits_app (ds : pystr) c r :
  Forall (λ d, Py_ISDIGIT d = true) ds → Py_ISDIGIT c = false →
  span_digits (ds ++ c :: r) = (ds, c :: r).
Proof.
  intros Hds Hc. induction Hds as [|d ds Hd _ IH]; simpl.
  - by rewrite Hc.
  - by rewrite Hd, IH.
Qed.

Lemma span_digits_all (ds : pystr) :
  Forall (λ d, Py_ISDIGIT d = true) ds → span_digits ds = (ds, []).
Proof.
  induction 1 as [|d ds Hd _ IH]; simpl; [done|]. by rewrite Hd, IH.
Qed.

Lemma parse_sign_digit d r :
  Py_ISDIGIT d = true → parse_sign (d :: r) = (false, d :: r).
Proof.
  intros Hd%is_digit_bounds. unfold parse_sign.
  by rewrite (proj2 (N.eqb_neq d 45)), (proj2 (N.eqb_neq d 43)) by lia.
Qed.

Lemma lstrip_zeros_length (ds : pystr) :
  length (lstrip_zeros ds) ≤ length ds.
Proof.
  induction ds as [|c ds IH]; simpl; [done|].
  destruct (c =? 48)%N; simpl; lia.
Qed.

Lemma ndigits_le (int_part frac_part : pystr) :
  (ndigits int_part frac_part
   ≤ N.of_nat (length int_part) + N.of_nat (length frac_part))%N.
Proof.
  unfold ndigits.
  pose proof (lstrip_zeros_length int_part).
  pose proof (lstrip_zeros_length frac_part).
  destruct (lstrip_zeros int_part); simpl in *; lia.
Qed.

Lemma decimal_text_chars negative (ds : pystr) d1 d2 :
  Forall (λ d, Py_ISDIGIT d = true) ds →
  Py_ISDIGIT d1 = true → Py_ISDIGIT d2 = true →
  Forall (λ c, Py_ISDIGIT c = true ∨ c = 45%N ∨ c = 46%N)
    (decimal_text negative ds d1 d2).
Proof.
  intros Hds Hd1 Hd2. unfold decimal_text. rewrite !Forall_app.
  split; [|split].
  - destruct negative; repeat (apply Forall_cons_2; [auto|]); constructor.
  - eapply Forall_impl; [exact Hds|]. auto.
  - repeat (apply Forall_cons_2; [auto|]). constructor.
Qed.

Lemma decimal_text_strtod negative (ds : pystr) d1 d2 :
  Forall (λ d, Py_ISDIGIT d = true) ds → ds ≠ [] →
  Py_ISDIGIT d1 = true → Py_ISDIGIT d2 = true →
  (N.of_nat (length ds) + 2 ≤ MAX_DIGITS)%N →
  strtod (decimal_text negative ds d1 d2) =
  Some (round_decimal negative (digits_value (ds ++ [d1; d2])) (-2), []).
Proof.
  intros Hds Hne Hd1 Hd2 Hlen.
  assert (parse_sign (decimal_text negative ds d1 d2) =
          (negative, ds ++ [46%N; d1; d2])) as Hsign.
  { unfold decimal_text. destruct negative; [done|]. simpl.
    destruct Hds as [|d ds' Hd _]; [done|]. by apply parse_sign_digit. }
  unfold strtod. rewrite Hsign.
  rewrite (span_digits_app ds 46 [d1; d2]) by done.
  change (46 =? 46)%N with true. cbv iota.
  rewrite (span_digits_all [d1; d2]) by (by repeat constructor).
  assert ((MAX_DIGITS <? ndigits ds [d1; d2])%N
          || (MAX_DIGITS <? N.of_nat (length [d1; d2]))%N = false) as Hmax.
  { pose proof (ndigits_le ds [d1; d2]) as Hn. simpl in Hn.
    apply orb_false_iff. split; apply N.ltb_ge; [lia|done]. }
  rewrite Hmax.
  destruct (ds ++ [d1; d2]) as [|c l] eqn:Happ; [|done].
  by apply app_eq_nil in Happ as [_ ?].
Qed.

Lemma decimal_text_float db negative (ds : pystr) d1 d2 :
  Forall (λ d, Py_ISDIGIT d = true) ds → ds ≠ [] →
  Py_ISDIGIT d1 = true → Py_ISDIGIT d2 = true →
  (N.of_nat (length ds) + 2 ≤ MAX_DIGITS)%N →
  float_of_str db (decimal_text negative ds d1 d2) =
  Returns (round_decimal negative (digits_value (ds ++ [d1; d2])) (-2)).
Proof.
  intros Hds Hne Hd1 Hd2 Hlen.
  pose proof (decimal_text_chars negative ds d1 d2 Hds Hd1 Hd2) as Hchars.
  unfold float_of_str.
  assert (transform_decimal_and_space db (decimal_text negative ds d1 d2)
          = decimal_text negative ds d1 d2) as ->.
  { unfold transform_decimal_and_space.
    rewrite (proj2 (forallb_forall _ _)); [done|].
    intros c Hc%list_elem_of_In. rewrite Forall_forall in Hchars.
    apply N.ltb_lt.
    destruct (Hchars c Hc) as [Hd%is_digit_bounds|[->| ->]]; lia. }
  assert (∀ c, Py_ISDIGIT c = true ∨ c = 45%N ∨ c = 46%N →
               Py_ISSPACE c = false) as Hspace.
  { intros c [Hd%is_digit_bounds|[->| ->]]; [|done..].
    unfold Py_ISSPACE. apply orb_false_iff.
    split; [apply andb_false_iff; right; apply N.leb_gt|apply N.eqb_neq];
      lia. }
  assert (strip (decimal_text negative ds d1 d2)
          = decimal_text negative ds d1 d2) as ->.
  { unfold strip.
    assert (∀ s : pystr,
              s ≠ [] → Forall (λ c, Py_ISSPACE c = false) s →
              lstrip s = s) as Hl.
    { intros [|c s] ? Hs; [done|].
      apply Forall_cons in Hs as [Hc _]. simpl. by rewrite Hc. }
    assert (Forall (λ c, Py_ISSPACE c = false)
              (decimal_text negative ds d1 d2)) as Hall.
    { eapply Forall_impl; [exact Hchars|]. exact Hspace. }
    assert (decimal_text negative ds d1 d2 ≠ []) as Hnil.
    { unfold decimal_text. intros Hnil.
      apply app_eq_nil in Hnil as [_ Hnil].
      by apply app_eq_nil in Hnil as [_ ?]. }
    rewrite (Hl _ Hnil Hall), Hl, reverse_involutive; [done|..].
    - intros Hrev. apply Hnil. by rewrite <- (reverse_involutive _), Hrev.
    - by apply Forall_reverse. }
  rewrite decide_False.
  - unfold string_to_double. by rewrite decimal_text_strtod.
  - intros Hin. rewrite Forall_forall in Hchars.
    destruct (Hchars _ Hin) as [Hd|[?|?]]; done.
Qed.

(** *** The size of a rendering *)

Lemma digits_value_lower (ds : pystr) (acc : Z) :
  Forall (λ d, Py_ISDIGIT d = true) ds → (0 ≤ acc)%Z →
  (acc * 10 ^ Z.of_nat (length ds)
   ≤ foldl (λ a d, 10 * a + (Z.of_N d - 48)) acc ds)%Z.
Proof.
  intros Hds. revert acc.
  induction Hds as [|d ds Hd%is_digit_bounds _ IH]; intros acc Hacc.
  { simpl. lia. }
  cbn [foldl length]. rewrite Nat2Z.inj_succ, Z.pow_succ_r by lia.
  etrans; [|apply IH; lia].
  pose proof (Z.pow_pos_nonneg 10 (Z.of_nat (length ds))). nia.
Qed.

Lemma decimal_leading (n : N) :
  n ≠ 0%N → ∃ d ds, decimal n = d :: ds ∧ (49 ≤ d ≤ 57)%N.
Proof.
  intros Hn. unfold decimal.
  assert (N.to_uint n = Decimal.unorm (N.to_uint n)) as Hnorm.
  { rewrite <- DecimalN.Unsigned.to_of. by rewrite DecimalN.Unsigned.of_to. }
  assert (Decimal.nzhead (N.to_uint n) ≠ Decimal.Nil) as Hhead.
  { intros Hnil%DecimalFacts.unorm_0. rewrite <- Hnorm in Hnil.
    apply Hn. rewrite <- (DecimalN.Unsigned.of_to n), Hnil. done. }
  rewrite (DecimalFacts.unorm_nzhead _ Hhead) in Hnorm.
  pose proof (DecimalFacts.nzhead_nonzero (N.to_uint n)) as Hnz.
  rewrite <- Hnorm in Hhead, Hnz.
  destruct (N.to_uint n) as [|u|u|u|u|u|u|u|u|u|u]; simpl;
    try done; try (by destruct (Hnz u)); eexists _, _; (split; [done|lia]).
Qed.

Lemma decimal_length (n : N) (k : nat) :
  (Z.of_N n < 10 ^ Z.of_nat k)%Z → length (decimal n) ≤ k `max` 1.
Proof.
  intros Hlt. destruct (decide (n = 0%N)) as [->|Hn]; [simpl; lia|].
  destruct (decimal_leading n Hn) as (d & ds & Hdec & Hd).
  pose proof (digits_value_decimal n) as Hvalue.
  pose proof (decimal_digits n) as Hdigits.
  rewrite Hdec in Hvalue, Hdigits |- *.
  apply Forall_cons in Hdigits as [_ Hdigits].
  unfold digits_value in Hvalue. cbn [foldl] in Hvalue.
  pose proof (digits_value_lower ds (10 * 0 + (Z.of_N d - 48)) Hdigits
                ltac:(lia)) as Hlow.
  rewrite Hvalue in Hlow.
  assert (10 ^ Z.of_nat (length ds) < 10 ^ Z.of_nat k)%Z as Hpow.
  { pose proof (Z.pow_pos_nonneg 10 (Z.of_nat (length ds))). nia. }
  apply Z.pow_lt_mono_r_iff in Hpow; simpl; lia.
Qed.

Lemma digits2_pos_size (m : positive) : digits2_pos m = Pos.size m.
Proof. induction m; simpl; congruence. Qed.

(** The hundredths of a binary64 number have fewer than 400 digits. *)
Lemma hundredths_bound (x : float) :
  valid_binary prec emax x = true → (Z.of_N (hundredths x) < 10 ^ 400)%Z.
Proof.
  destruct x as [s|s| |s m e]; try done. unfold valid_binary, bounded.
  intros [Hcanon He%Z.leb_le]%andb_true_iff.
  unfold canonical_mantissa, fexp, emin, prec, emax in *.
  apply Z.eqb_eq in Hcanon.
  assert (Zpos m < 2 ^ 53)%Z as Hm.
  { pose proof (Pos.size_gt m) as Hsize.
    rewrite digits2_pos_size in Hcanon.
    apply Pos2Z.pos_lt_pos in Hsize. rewrite Pos2Z.inj_pow in Hsize.
    eapply Z.lt_le_trans; [exact Hsize|].
    apply Z.pow_le_mono_r; lia. }
  assert (2 ^ 1024 * 100 < 10 ^ 400)%Z as Hbig by (by vm_compute).
  assert (2 ^ 53 * 100 + 1 < 10 ^ 400)%Z as Hsmall by (by vm_compute).
  unfold hundredths. destruct (Z.leb_spec 0 e) as [Hpos|Hneg].
  - rewrite Z2N.id by (pose proof (Z.pow_pos_nonneg 2 e); lia).
    eapply Z.le_lt_trans; [|exact Hbig].
    assert (2 ^ e ≤ 2 ^ 971)%Z as Hpow by (apply Z.pow_le_mono_r; lia).
    replace (2 ^ 1024)%Z with (2 ^ 53 * 2 ^ 971)%Z
      by (by rewrite <- Z.pow_add_r).
    pose proof (Z.pow_pos_nonneg 2 e).
    apply Z.mul_le_mono_nonneg_r; [lia|].
    apply Z.mul_le_mono_nonneg; lia.
  - assert (0 < 2 ^ (- e))%Z as Hden by (apply Z.pow_pos_nonneg; lia).
    assert (round_half_even (Zpos m * 100) (2 ^ (- e))
            ≤ Zpos m * 100 + 1)%Z as Hround.
    { unfold round_half_even.
      assert ((Zpos m * 100) / 2 ^ (- e) ≤ Zpos m * 100)%Z
        by (apply Z.div_le_upper_bound; nia).
      destruct (_ ?= _)%Z; [destruct (Z.even _)|..]; lia. }
    revert Hround Hsmall Hm.
    generalize (round_half_even (Zpos m * 100) (2 ^ (- e))) (10 ^ 400)%Z.
    intros r big Hround Hsmall Hm. lia.
Qed.

Lemma hundredths_length (x : float) :
  valid_binary prec emax x = true →
  (N.of_nat (length (decimal (hundredths x / 100))) + 2 ≤ MAX_DIGITS)%N.
Proof.
  intros Hvalid%hundredths_bound.
  assert (Z.of_N (hundredths x / 100) < 10 ^ Z.of_nat 400)%Z as Hlt.
  { eapply Z.le_lt_trans; [|exact Hvalid]. rewrite N2Z.inj_div.
    apply Z.div_le_upper_bound; lia. }
  apply decimal_length in Hlt. unfold MAX_DIGITS. lia.
Qed.

(** *** From a rendering back to a float *)

Lemma digit_kept (d : N) :
  Py_ISDIGIT d = true → d ≠ 36%N ∧ d ≠ 44%N.
Proof. intros Hd%is_digit_bounds. lia. Qed.

Lemma delete_symbols_digits (ds : pystr) :
  Forall (λ d, Py_ISDIGIT d = true) ds → delete_symbols ds = ds.
Proof.
  unfold delete_symbols. induction 1 as [|d ds Hd%digit_kept _ IH]; [done|].
  by rewrite filter_cons_True, IH.
Qed.

Lemma delete_symbols_insert_commas k (ds : pystr) :
  Forall (λ d, Py_ISDIGIT d = true) ds →
  delete_symbols (insert_commas k ds) = ds.
Proof.
  unfold delete_symbols. intros Hds. revert k.
  induction Hds as [|d ds Hd%digit_kept _ IH]; intros k; [done|].
  destruct k as [|[|[|[|k]]]]; simpl;
    rewrite ?(filter_cons_False _ 44%N) by (by intros [_ ?]);
    rewrite filter_cons_True by done; by rewrite IH.
Qed.

Lemma delete_symbols_group_thousands (ds : pystr) :
  Forall (λ d, Py_ISDIGIT d = true) ds →
  delete_symbols (group_thousands ds) = ds.
Proof.
  intros Hds. unfold group_thousands, delete_symbols.
  rewrite filter_reverse. fold (delete_symbols (insert_commas 0 (reverse ds))).
  rewrite delete_symbols_insert_commas by by apply Forall_reverse.
  apply reverse_involutive.
Qed.

Lemma digits_value_hundredths (h : N) :
  digits_value (decimal (h / 100) ++ two_digits (h mod 100)) = Z.of_N h.
Proof.
  unfold digits_value. rewrite foldl_app.
  fold (digits_value (decimal (h / 100))). rewrite digits_value_decimal.
  unfold two_digits. simpl.
  pose proof (N.div_mod h 100 ltac:(done)) as Hh.
  pose proof (N.div_mod (h mod 100) 10 ltac:(done)) as Hn.
  revert Hh Hn.
  generalize (h / 100)%N (h mod 100 / 10)%N ((h mod 100) mod 10)%N.
  generalize (h mod 100)%N. intros n q d1 d2 Hh Hn. lia.
Qed.

(** Without its dollar sign and commas, the rendering of a finite float
    is a plain decimal with two decimals. *)
Lemma delete_symbols_format_currency (x : float) negative :
  match x with
  | S754_zero s | S754_finite s _ _ => negative = s
  | _ => False
  end →
  delete_symbols (format_currency x) =
  decimal_text negative (decimal (hundredths x / 100))
    (48 + hundredths x mod 100 / 10) (48 + (hundredths x mod 100) mod 10).
Proof.
  intros Hsign.
  assert (format_currency x =
          36%N :: sign_chars negative
            ++ group_thousands (decimal (hundredths x / 100))
            ++ 46%N :: two_digits (hundredths x mod 100)) as ->.
  { by destruct x; try done; subst. }
  assert (∀ a b, delete_symbols (a ++ b) = delete_symbols a ++ delete_symbols b)
    as Happ by (intros; apply filter_app).
  change (delete_symbols (36%N :: ?l)) with (delete_symbols l).
  rewrite !Happ.
  rewrite (delete_symbols_group_thousands _ (decimal_digits _)).
  change (delete_symbols (46%N :: ?l)) with (46%N :: delete_symbols l).
  rewrite (delete_symbols_digits (two_digits _))
    by (apply two_digits_digits; by apply N.mod_lt).
  unfold decimal_text, two_digits. by destruct negative.
Qed.

Lemma format_currency_float db (x : float) :
  valid_binary prec emax x = true →
  float_of_str db (delete_symbols (format_currency x)) = Returns (cents x).
Proof.
  intros Hvalid.
  assert (∀ s, match x with
               | S754_zero s' | S754_finite s' _ _ => s = s'
               | _ => False
               end →
               float_of_str db (delete_symbols (format_currency x)) =
               Returns (round_decimal s (Z.of_N (hundredths x)) (-2)))
    as Hfinite.
  { intros s Hs. rewrite (delete_symbols_format_currency x s Hs).
    pose proof (two_digits_digits (hundredths x mod 100)
                  ltac:(by apply N.mod_lt)) as Htwo.
    unfold two_digits in Htwo.
    apply Forall_cons in Htwo as [Hd1 Htwo].
    apply Forall_cons in Htwo as [Hd2 _].
    rewrite decimal_text_float;
      auto using decimal_digits, decimal_nonempty, hundredths_length.
    f_equal. f_equal. apply digits_value_hundredths. }
  destruct x as [s|s| |s m e].
  - by apply Hfinite.
  - by destruct s; vm_compute.
  - by vm_compute.
  - by apply Hfinite.
Qed.

(** X10: what [format_currency] writes, [calculate_available] reads back.
    For binary64 amounts, [float] refuses a rendering as it is, because of
    the dollar sign; with the dollar sign and the commas deleted it reads
    the amount rounded to hundredths, infinities and NaN included; so
    [calculate_available] on two renderings returns the difference of the
    two amounts rounded to hundredths. *)
Theorem format_currency_read_back db (x y : float) :
  valid_binary prec emax x = true → valid_binary prec emax y = true →
  float_of_str db (format_currency x) = Raises ValueError
  ∧ float_of_str db (delete_symbols (format_currency x)) = Returns (cents x)
  ∧ calculate_available db (format_currency x) (format_currency y)
    = Returns (SFsub prec emax (cents x) (cents y)).
Proof.
  intros Hx Hy. split; [|split].
  - apply (float_of_str_refuses db _ 36); [|done].
    unfold format_currency. apply list_elem_of_here.
  - by apply format_currency_float.
  - by rewrite calculate_available_cases, !format_currency_float.
Qed.

Lemma format_currency_read_back_witness :
  valid_binary prec emax f_1234_50 = true
  ∧ valid_binary prec emax f_749_50 = true
  ∧ cents f_1234_50 = f_1234_50
  ∧ float_of_str unicode (delete_symbols (format_currency f_1234_50))
    = Returns f_1234_50
  ∧ calculate_available unicode (format_currency f_1234_50)
      (format_currency f_749_50)
    = Returns (float_of_Z 485).
Proof.
  destruct (format_currency_read_back unicode f_1234_50 f_749_50)
    as (_ & Hread & Hdiff); [reflexivity..|].
  split; [reflexivity|]. split; [reflexivity|].
  split; [vm_compute; reflexivity|].
  split; [rewrite Hread; vm_compute; reflexivity|].
  rewrite Hdiff. vm_compute. reflexivity.
Defined.

(** *** The cents of a rendering *)

Lemma format_currency_digits (x : float) :
  is_finite x = true →
  digits_value (filter (λ c, Py_ISDIGIT c = true) (format_currency x))
  = Z.of_N (hundredths x).
Proof.
  intros Hfin. destruct (format_currency_finite x Hfin) as [s ->].
  pose proof (two_digits_digits (hundredths x mod 100)
                ltac:(by apply N.mod_lt)) as Htwo.
  rewrite filter_cons_False by done. rewrite !filter_app.
  rewrite group_thousands_filter by apply decimal_digits.
  rewrite filter_cons_False by done.
  rewrite (filter_digits_id _ Htwo).
  assert (filter (λ c, Py_ISDIGIT c = true) (sign_chars s) = []) as ->
    by by destruct s.
  apply digits_value_hundredths.
Qed.

Lemma round_half_even_tie (num den : Z) :
  (0 < den)%Z →
  Z.abs (2 * (den * round_half_even num den - num)) = den →
  Z.even (round_half_even num den) = true.
Proof.
  intros Hden. unfold round_half_even.
  pose proof (Z.div_mod num den ltac:(lia)) as Hdm.
  pose proof (Z.mod_pos_bound num den Hden) as Hr.
  revert Hdm Hr. generalize (num / den)%Z (num mod den)%Z. intros q r Hdm Hr.
  destruct (Z.compare_spec (2 * r) den) as [Heq|Hlt|Hgt].
  - destruct (Z.even q) eqn:Hq; [done|]. intros _.
    rewrite Z.even_add, Hq. done.
  - intros Habs. nia.
  - intros Habs. nia.
Qed.

(** X11: [format_currency] shows a finite amount to the nearest cent.
    The digits of the rendering, read as a number of cents, are exactly
    the amount times 100 when that is an integer; otherwise they differ
    from it by at most one half, and when the amount is exactly half way
    between two cents the even one is shown. *)
Theorem format_currency_to_the_cent (s : bool) (m : positive) (e : Z) :
  let shown := digits_value (filter (λ c, Py_ISDIGIT c = true)
                               (format_currency (S754_finite s m e))) in
  ((0 ≤ e)%Z → shown = (Zpos m * 2 ^ e * 100)%Z)
  ∧ ((e < 0)%Z →
     (Z.abs (2 * (2 ^ (- e) * shown - Zpos m * 100)) ≤ 2 ^ (- e))%Z
     ∧ (Z.abs (2 * (2 ^ (- e) * shown - Zpos m * 100)) = (2 ^ (- e))%Z →
        Z.even shown = true)).
Proof.
  intros shown. unfold shown. rewrite format_currency_digits by done.
  destruct (hundredths_nearest s m e) as [Hexact Hnear].
  split; [done|]. intros He. split; [by apply Hnear|].
  unfold hundredths. rewrite (proj2 (Z.leb_gt 0 e)) by done.
  assert (0 < 2 ^ (- e))%Z as Hden by (apply Z.pow_pos_nonneg; lia).
  assert (0 ≤ round_half_even (Z.pos m * 100) (2 ^ (- e)))%Z as Hpos.
  { unfold round_half_even.
    pose proof (Z.div_pos (Zpos m * 100) (2 ^ (- e)) ltac:(lia) Hden).
    destruct (_ ?= _)%Z; [destruct (Z.even _)|..]; lia. }
  rewrite Z2N.id by done. by apply round_half_even_tie.
Qed.

Lemma format_currency_to_the_cent_witness :
  digits_value (filter (λ c, Py_ISDIGIT c = true)
                  (format_currency f_neg_1234_50)) = 123450%Z
  ∧ (Z.abs (2 * (2 ^ 42 * 123450 - 5429388417957888 * 100)) ≤ 2 ^ 42)%Z
  ∧ format_currency (S754_finite false 1 (-3)) = py "$0.12"
  ∧ Z.even (digits_value (filter (λ c, Py_ISDIGIT c = true)
                            (format_currency (S754_finite false 1 (-3)))))
    = true.
Proof.
  destruct (format_currency_to_the_cent true 5429388417957888 (-42))
    as [_ Hnear].
  destruct (Hnear ltac:(lia)) as [Hhalf _].
  destruct (format_currency_to_the_cent false 1 (-3)) as [_ Htie].
  destruct (Htie ltac:(lia)) as [_ Heven].
  assert (digits_value (filter (λ c, Py_ISDIGIT c = true)
                          (format_currency f_neg_1234_50)) = 123450%Z)
    as Hshown by (vm_compute; reflexivity).
  split; [exact Hshown|]. split.
  - unfold f_neg_1234_50 in Hshown. rewrite Hshown in Hhalf. exact Hhalf.
  - split; [vm_compute; reflexivity|]. apply Heven. vm_compute. reflexivity.
Defined.

(** *** White space around an amount *)

Section spaces.
Variable db : unicode_db.
Implicit Types (s sp : pystr).

Lemma lstrip_app_spaces sp s :
  Forall (λ c, Py_ISSPACE c = true) sp → lstrip (sp ++ s) = lstrip s.
Proof. induction 1 as [|c sp Hc _ IH]; simpl; [done|]. by rewrite Hc. Qed.

Lemma lstrip_app s sp :
  Forall (λ c, Py_ISSPACE c = true) sp →
  lstrip (s ++ sp) = match lstrip s with [] => [] | r => r ++ sp end.
Proof.
  intros Hsp. induction s as [|c s IH]; simpl.
  - rewrite <- (app_nil_r sp). by rewrite lstrip_app_spaces.
  - by destruct (Py_ISSPACE c).
Qed.

Lemma strip_spaces sp1 s sp2 :
  Forall (λ c, Py_ISSPACE c = true) sp1 →
  Forall (λ c, Py_ISSPACE c = true) sp2 →
  strip (sp1 ++ s ++ sp2) = strip s.
Proof.
  intros Hsp1 Hsp2. unfold strip.
  rewrite lstrip_app_spaces, lstrip_app by done.
  destruct (lstrip s) as [|c r]; [done|].
  rewrite reverse_app, lstrip_app_spaces; [done|].
  by apply Forall_reverse.
Qed.

Lemma space_below_127 c : Py_ISSPACE c = true → (c < 127)%N.
Proof.
  unfold Py_ISSPACE.
  intros [[_ Hc%N.leb_le]%andb_true_iff|Hc%N.eqb_eq]%orb_true_iff; lia.
Qed.

Lemma transform_non_ascii_spaces sp s :
  Forall (λ c, Py_ISSPACE c = true) sp →
  transform_non_ascii db (sp ++ s) = sp ++ transform_non_ascii db s.
Proof.
  induction 1 as [|c sp Hc%space_below_127 _ IH]; simpl; [done|].
  by rewrite (proj2 (N.ltb_lt c 127)), IH.
Qed.

(** What follows a string is transformed after it, unless the string was
    cut at a character it cannot render. *)
Lemma transform_non_ascii_app s sp :
  Forall (λ c, Py_ISSPACE c = true) sp →
  (transform_non_ascii db (s ++ sp) = transform_non_ascii db s ++ sp)
  ∨ (transform_non_ascii db (s ++ sp) = transform_non_ascii db s).
Proof.
  intros Hsp. induction s as [|ch s IH]; simpl.
  { left. rewrite <- (app_nil_r sp) at 1.
    by rewrite transform_non_ascii_spaces, app_nil_r. }
  destruct (ch <? 127)%N; [destruct IH as [-> | ->]; auto|].
  destruct (Py_UNICODE_ISSPACE db ch); [destruct IH as [-> | ->]; auto|].
  destruct (Py_UNICODE_TODECIMAL db ch); [destruct IH as [-> | ->]; auto|].
  by right.
Qed.

Lemma float_of_str_spaces sp1 s sp2 :
  Forall (λ c, Py_ISSPACE c = true) sp1 →
  Forall (λ c, Py_ISSPACE c = true) sp2 →
  float_of_str db (sp1 ++ s ++ sp2) = float_of_str db s.
Proof.
  intros Hsp1 Hsp2. unfold float_of_str.
  assert (strip (transform_decimal_and_space db (sp1 ++ s ++ sp2)) =
          strip (transform_decimal_and_space db s)) as ->; [|done].
  assert (∀ sp, Forall (λ c, Py_ISSPACE c = true) sp →
                forallb (λ ch, (ch <? 128)%N) sp = true) as Hascii.
  { intros sp Hsp. apply forallb_forall. intros c Hc%list_elem_of_In.
    rewrite Forall_forall in Hsp. apply N.ltb_lt.
    pose proof (space_below_127 c (Hsp c Hc)). lia. }
  unfold transform_decimal_and_space.
  rewrite !forallb_app, (Hascii sp1 Hsp1), (Hascii sp2 Hsp2).
  rewrite andb_true_l, andb_true_r.
  destruct (forallb _ s); [by apply strip_spaces|].
  rewrite transform_non_ascii_spaces by done.
  destruct (transform_non_ascii_app s sp2 Hsp2) as [-> | ->].
  - by apply strip_spaces.
  - rewrite <- (app_nil_r (transform_non_ascii db s)) at 1.
    by apply strip_spaces.
Qed.

Lemma delete_symbols_spaces sp :
  Forall (λ c, Py_ISSPACE c = true) sp → delete_symbols sp = sp.
Proof.
  unfold delete_symbols. induction 1 as [|c sp Hc _ IH]; [done|].
  rewrite filter_cons_True, IH; [done|].
  unfold Py_ISSPACE in Hc.
  apply orb_true_iff in Hc as [[_ Hc%N.leb_le]%andb_true_iff|Hc%N.eqb_eq];
    lia.
Qed.

(** X12: [calculate_available] ignores white space around an amount.
    Blanks, tabs and line ends before and after either input do not change
    the result. *)
Theorem calculate_available_ignores_spaces sp1 sp2 s t :
  Forall (λ c, Py_ISSPACE c = true) sp1 →
  Forall (λ c, Py_ISSPACE c = true) sp2 →
  calculate_available db (sp1 ++ s ++ sp2) t = calculate_available db s t
  ∧ calculate_available db t (sp1 ++ s ++ sp2) = calculate_available db t s.
Proof.
  intros Hsp1 Hsp2. rewrite !calculate_available_cases.
  assert (float_of_str db (delete_symbols (sp1 ++ s ++ sp2)) =
          float_of_str db (delete_symbols s)) as ->; [|done].
  assert (delete_symbols (sp1 ++ s ++ sp2) = sp1 ++ delete_symbols s ++ sp2)
    as ->; [|by apply float_of_str_spaces].
  rewrite <- (delete_symbols_spaces sp1 Hsp1) at 2.
  rewrite <- (delete_symbols_spaces sp2 Hsp2) at 2.
  unfold delete_symbols. by rewrite !filter_app.
Qed.
End spaces.

Lemma calculate_available_ignores_spaces_witness :
  Forall (λ c, Py_ISSPACE c = true) (py "  ")
  ∧ Forall (λ c, Py_ISSPACE c = true) [9; 10]%N
  ∧ calculate_available unicode (py "  " ++ py "$1,200.00" ++ [9; 10]%N)
      (py "$450.50")
    = Returns f_749_50.
Proof.
  assert (Forall (λ c, Py_ISSPACE c = true) (py "  ")) as Hsp1
    by (by repeat constructor).
  assert (Forall (λ c, Py_ISSPACE c = true) [9; 10]%N) as Hsp2
    by (by repeat constructor).
  split; [exact Hsp1|]. split; [exact Hsp2|].
  destruct (calculate_available_ignores_spaces unicode (py "  ") [9; 10]%N
              (py "$1,200.00") (py "$450.50") Hsp1 Hsp2) as [-> _].
  vm_compute. reflexivity.
Defined.

(** *** Budget and spent exchanged *)

Lemma binary_round_aux_opp s m e l :
  binary_round_aux prec emax (negb s) m e l =
  SFopp (binary_round_aux prec emax s m e l).
Proof.
  unfold binary_round_aux.
  destruct (shr_fexp prec emax m e l) as [mrs' e'].
  destruct (shr_fexp prec emax _ e' loc_Exact) as [mrs'' e''].
  destruct (shr_m mrs''); [done| |done].
  by destruct (e'' <=? emax - prec)%Z.
Qed.

Lemma binary_normalize_opp z e :
  z ≠ 0%Z →
  binary_normalize prec emax (- z) e false =
  SFopp (binary_normalize prec emax z e false).
Proof.
  intros Hz. destruct z as [|m|m]; [done|..]; simpl; unfold binary_round;
    destruct (shl_align _ _ _) as [mz ez].
  - apply (binary_round_aux_opp false).
  - apply (binary_round_aux_opp true).
Qed.

Lemma SFsub_swap (x y : float) :
  is_zero (SFsub prec emax x y) = false →
  SFsub prec emax y x = SFopp (SFsub prec emax x y).
Proof.
  destruct x as [sx|sx| |sx mx ex], y as [sy|sy| |sy my ey];
    try done; try (by destruct sx, sy); try (by destruct sx);
    try (by destruct sy).
  intros Hzero.
  unfold SFsub in *. rewrite (Z.min_comm ey ex).
  set (X := cond_Zopp sx _) in *. set (Y := cond_Zopp sy _) in *.
  replace (Y - X)%Z with (- (X - Y))%Z by lia.
  apply binary_normalize_opp. intros Hdiff. by rewrite Hdiff in Hzero.
Qed.

(** X13: with budget and spent exchanged the available amount changes
    sign.  Whenever [calculate_available] returns something other than a
    zero, it returns on the two inputs in the other order the same float
    with the opposite sign. *)
Theorem calculate_available_swap db (budget spent : pystr) (available : float) :
  calculate_available db budget spent = Returns available →
  is_zero available = false →
  calculate_available db spent budget = Returns (SFopp available).
Proof.
  rewrite !calculate_available_cases.
  destruct (float_of_str db (delete_symbols budget)) as [x|];
    destruct (float_of_str db (delete_symbols spent)) as [y|];
    intros [= <-] Hzero; try done.
  by rewrite SFsub_swap.
Qed.

Lemma calculate_available_swap_witness :
  calculate_available unicode (py "$1,200.00") (py "$450.50")
    = Returns f_749_50
  ∧ is_zero f_749_50 = false
  ∧ calculate_available unicode (py "$450.50") (py "$1,200.00")
    = Returns (SFopp f_749_50).
Proof.
  assert (calculate_available unicode (py "$1,200.00") (py "$450.50")
          = Returns f_749_50) as Hrun by (vm_compute; reflexivity).
  split; [exact Hrun|]. split; [reflexivity|].
  by apply calculate_available_swap.
Defined.

End CalculatorExtras.
